(** * Meditation API backend: retry policy, model registry, generation
      client and content orchestrators

    A shallow embedding of [GoogleApiCall.py], [main.py] and
    [session_planner.py].  Python [str] values are modelled as [string],
    each character standing for a code point below 256; [int] as [Z];
    [dict] as [gmap]; a raised exception as the [Raise] case of [result].
    Effects (logging, sleeping, the calls into the generative-AI SDK, the
    class-level registry) are threaded through a state-and-journal monad. *)

From Stdlib Require Import ZArith Ascii DecimalString Lia.
From stdpp Require Import gmap strings list fin_maps sorting.

Local Open Scope Z_scope.
Set Warnings "-register-all".

(** ** Text *)

Module Text.

(** [str.isspace] on the code points below 256. *)
Definition isspace (c : ascii) : bool :=
  let n := nat_of_ascii c in
  ((9 <=? n) && (n <=? 13) || (28 <=? n) && (n <=? 32)
   || (n =? 133) || (n =? 160))%nat.

Fixpoint lstrip (s : string) : string :=
  match s with
  | EmptyString => EmptyString
  | String c s' => if isspace c then lstrip s' else s
  end.

Fixpoint rstrip (s : string) : string :=
  match s with
  | EmptyString => EmptyString
  | String c s' =>
      match rstrip s' with
      | EmptyString => if isspace c then EmptyString else String c EmptyString
      | r => String c r
      end
  end.

(** [s.strip()] *)
Definition strip (s : string) : string := rstrip (lstrip s).

(** Truth value of a [str]: non-empty. *)
Definition truthy (s : string) : bool :=
  match s with EmptyString => false | String _ _ => true end.

(** [str(n)] for an [int]. *)
Definition of_Z (n : Z) : string := NilZero.string_of_int (Z.to_int n).

(** [len(s)] *)
Definition len (s : string) : Z := Z.of_nat (String.length s).

Fixpoint all_space (s : string) : bool :=
  match s with
  | EmptyString => true
  | String c s' => isspace c && all_space s'
  end.

(** [needle in hay] *)
Fixpoint contains (needle hay : string) : bool :=
  String.prefix needle hay
  || match hay with
     | EmptyString => false
     | String _ hay' => contains needle hay'
     end.

(** [needle] occurs in [hay] as a contiguous run of characters. *)
Definition occurs_in (needle hay : string) : Prop :=
  ∃ pre suf, hay = pre +:+ needle +:+ suf.

Definition dquote : string := String (ascii_of_nat 34) EmptyString.
Definition squote : string := String (ascii_of_nat 39) EmptyString.
Definition backslash : string := String (ascii_of_nat 92) EmptyString.
Definition nl : string := String (ascii_of_nat 10) EmptyString.

Fixpoint has_char (c : ascii) (s : string) : bool :=
  match s with
  | EmptyString => false
  | String d s' => if decide (c = d) then true else has_char c s'
  end.

Definition hex_digit (n : nat) : ascii :=
  ascii_of_nat (if (n <? 10)%nat then 48 + n else 87 + n)%nat.

(** [str.isprintable] on the code points below 256. *)
Definition isprintable (c : ascii) : bool :=
  let n := nat_of_ascii c in
  ((32 <=? n) && (n <=? 126) || (161 <=? n) && negb (n =? 173))%nat.

(** One character of [repr(s)], [q] being the enclosing quote. *)
Definition repr_char (q c : ascii) : string :=
  let n := nat_of_ascii c in
  if decide (c = q) then backslash +:+ String c EmptyString
  else if (n =? 92)%nat then backslash +:+ backslash
  else if (n =? 9)%nat then backslash +:+ "t"
  else if (n =? 10)%nat then backslash +:+ "n"
  else if (n =? 13)%nat then backslash +:+ "r"
  else if isprintable c then String c EmptyString
  else backslash +:+ "x"
       +:+ String (hex_digit (n / 16)) (String (hex_digit (n mod 16)) EmptyString).

Fixpoint repr_body (q : ascii) (s : string) : string :=
  match s with
  | EmptyString => EmptyString
  | String c s' => repr_char q c +:+ repr_body q s'
  end.

(** [repr(s)] for a [str]: single quotes unless the text holds a single
    quote and no double quote. *)
Definition repr (s : string) : string :=
  let sq := ascii_of_nat 39 in
  let dq := ascii_of_nat 34 in
  let q := if has_char sq s && negb (has_char dq s) then dq else sq in
  String q (repr_body q s +:+ String q EmptyString).

End Text.

(** ** Python values, exceptions and effects *)

(** The values a request context or a phrase-table cell can hold. *)
Inductive pyval :=
| VNone
| VInt (n : Z)
| VStr (s : string)
| VList (items : list pyval).

(** [repr(v)] *)
Fixpoint py_repr (v : pyval) : string :=
  match v with
  | VNone => "None"
  | VInt n => Text.of_Z n
  | VStr s => Text.repr s
  | VList l =>
      "[" +:+ (fix items (l : list pyval) : string :=
                 match l with
                 | [] => EmptyString
                 | x :: xs =>
                     py_repr x +:+ match xs with
                                   | [] => EmptyString
                                   | _ :: _ => ", " +:+ items xs
                                   end
                 end) l +:+ "]"
  end.

(** [str(v)], which is also what an f-string field [{v}] renders. *)
Definition py_str (v : pyval) : string :=
  match v with
  | VStr s => s
  | _ => py_repr v
  end.

(** [d.get(key, default)] *)
Definition dict_get (d : gmap string pyval) (key : string) (default : pyval) : pyval :=
  match d !! key with
  | Some v => v
  | None => default
  end.

(** Exceptions; every one of them is a subclass of [Exception].
    [ApiError] stands for whatever the SDK raises. *)
Inductive exn :=
| ValueError (msg : string)
| KeyError (key : string)
| AttributeError (msg : string)
| IndexError (msg : string)
| ApiError (msg : string).

(** [str(e)] *)
Definition exn_str (e : exn) : string :=
  match e with
  | ValueError msg => msg
  | KeyError key => Text.repr key
  | AttributeError msg => msg
  | IndexError msg => msg
  | ApiError msg => msg
  end.

Inductive result (A : Type) :=
| Ok (a : A)
| Raise (e : exn).
Arguments Ok {A} a.
Arguments Raise {A} e.

Inductive level := INFO | WARNING | ERROR.

(** A number in a generation config: an [int], or a [float] given by the
    value of its decimal literal. *)
Inductive num :=
| Int (n : Z)
| Float (numerator : Z) (denominator : positive).

(** [genai.GenerativeModel]: the handle to the remote model. *)
Record GenerativeModel := {
  gm_model_name : string;
  gm_generation_config : gmap string num
}.

(** What a run leaves behind, in order.  [EvAttempt inner] is one invocation
    of a function under [retry_on_error], with the events of that
    invocation inside. *)
Inductive event :=
| EvLog (lvl : level) (msg : string)
| EvSleep (seconds : Z)
| EvConfigure (api_key : string)
| EvNewModel (name : string) (cfg : gmap string num)
| EvGenerate (model : GenerativeModel) (prompt : string)
| EvAttempt (inner : list event).

(** The behaviour of the [google.generativeai] package: each call may raise;
    the answer to a prompt may depend on the model and on the prompts sent
    before (most recent first). *)
Record Sdk := {
  sdk_configure : string → option exn;
  sdk_new_model : string → gmap string num → option exn;
  sdk_generate : GenerativeModel → list string → string → result string
}.

(** Process-wide state. *)
Record World := {
  environ : gmap string string;            (* os.environ *)
  dotenv : gmap string string;             (* the variables of the .env file *)
  model_configs : gmap string (gmap string num);  (* GoogleApiCall.MODEL_CONFIGS, as it is now *)
  sent : list string;                      (* prompts sent so far *)
  sdk : Sdk
}.

(** A computation over a state [S]: a result or a raised exception, the new
    state, and the events emitted. *)
Definition M (S A : Type) : Type := S → result A * S * list event.

Definition ret {S A} (a : A) : M S A := λ s, (Ok a, s, []).

Definition bind {S A B} (c : M S A) (k : A → M S B) : M S B :=
  λ s, match c s with
       | (Ok a, s1, ev1) => let '(r, s2, ev2) := k a s1 in (r, s2, ev1 ++ ev2)
       | (Raise e, s1, ev1) => (Raise e, s1, ev1)
       end.

Notation "'do' x <- c ; k" := (bind c (λ x, k))
  (at level 10, x name, c at level 100, k at level 200).
Notation "c ;; k" := (bind c (λ _, k))
  (at level 100, k at level 200, right associativity).

(** [raise e] *)
Definition raise {S A} (e : exn) : M S A := λ s, (Raise e, s, []).

(** [try: body  except Exception as e: handler e] *)
Definition try_except {S A} (body : M S A) (handler : exn → M S A) : M S A :=
  λ s, match body s with
       | (Ok a, s1, ev1) => (Ok a, s1, ev1)
       | (Raise e, s1, ev1) => let '(r, s2, ev2) := handler e s1 in (r, s2, ev1 ++ ev2)
       end.

Definition emit {S} (e : event) : M S unit := λ s, (Ok tt, s, [e]).

(** [logging.info], [logging.warning], [logging.error] *)
Definition log {S} (lvl : level) (msg : string) : M S unit := emit (EvLog lvl msg).

(** [time.sleep]: a negative length raises. *)
Definition time_sleep {S} (seconds : Z) : M S unit :=
  if seconds <? 0 then raise (ValueError "sleep length must be non-negative")
  else emit (EvSleep seconds).

Definition get {S} : M S S := λ s, (Ok s, s, []).
Definition modify {S} (f : S → S) : M S unit := λ s, (Ok tt, f s, []).

(** ** Retry policy ([retry_on_error]) *)

Section Retry.
Context {S A : Type}.
Variables (max_retries delay : Z).
Variable func : M S A.

(** One run of the [try] block: [func] is invoked, its events are kept
    inside an [EvAttempt], and its outcome is handed to the handler. *)
Definition invoke : M S (result A) :=
  λ s, let '(r, s1, ev) := func s in (Ok r, s1, [EvAttempt ev]).

(** The [while retries < max_retries] loop, from the current value of
    [retries].  [fuel] bounds the iterations left; [wrapper] supplies
    [max_retries] of it, which the loop cannot use up. *)
Fixpoint retry_loop (fuel : nat) (retries : Z) : M S (option A) :=
  if retries <? max_retries then
    match fuel with
    | O => ret None
    | Datatypes.S fuel' =>
        do r <- invoke;
        match r with
        | Ok v => ret (Some v)
        | Raise e =>
            let retries := retries + 1 in
            if retries =? max_retries then
              log ERROR ("Final error after " +:+ Text.of_Z max_retries
                         +:+ " retries: " +:+ exn_str e) ;;
              raise e
            else
              log WARNING ("Error occurred: " +:+ exn_str e +:+ ". Retry "
                           +:+ Text.of_Z retries +:+ "/" +:+ Text.of_Z max_retries
                           +:+ " in " +:+ Text.of_Z delay +:+ " seconds...") ;;
              time_sleep delay ;;
              retry_loop fuel' retries
        end
    end
  else ret None.

(** [retry_on_error(max_retries, delay)(func)]: [None] is Python's [None],
    returned when the loop is left without a call having returned. *)
Definition wrapper : M S (option A) :=
  retry_loop (Z.to_nat max_retries) 0.

End Retry.

Definition retry_on_error {S A} (max_retries delay : Z) (func : M S A) : M S (option A) :=
  wrapper max_retries delay func.

(** Counting in a journal: the invocations of the wrapped function and the
    sleeps of the wrapper itself (those inside an invocation are not its own). *)
Definition attempts (ev : list event) : list (list event) :=
  omap (λ e, match e with EvAttempt inner => Some inner | _ => None end) ev.
Definition invocations (ev : list event) : nat := length (attempts ev).
Definition sleeps (ev : list event) : list Z :=
  omap (λ e, match e with EvSleep d => Some d | _ => None end) ev.

Definition set_environ (env : gmap string string) (w : World) : World :=
  {| environ := env; dotenv := dotenv w; model_configs := model_configs w;
     sent := sent w; sdk := sdk w |}.
Definition set_model_configs (cfgs : gmap string (gmap string num)) (w : World) : World :=
  {| environ := environ w; dotenv := dotenv w; model_configs := cfgs;
     sent := sent w; sdk := sdk w |}.
Definition set_sent (l : list string) (w : World) : World :=
  {| environ := environ w; dotenv := dotenv w; model_configs := model_configs w;
     sent := l; sdk := sdk w |}.

(** A computation on the process state alone, run where an object's fields
    are in the state as well. *)
Definition on_world {X A} (c : M World A) : M (World * X) A :=
  λ '(w, x), let '(r, w1, ev) := c w in (r, (w1, x), ev).

Definition of_result {S A} (r : result A) : M S A := λ s, (r, s, []).

(** ** Generation client ([GoogleApiCall]) *)

Module GoogleApiCall.

Definition DEFAULT_MODEL : string := "gemini-2.5-flash".

(** The class attribute as the class body sets it. *)
Definition MODEL_CONFIGS : gmap string (gmap string num) :=
  {[ "gemini-2.5-flash" :=
       {[ "temperature" := Float 5 10; "top_p" := Float 95 100;
          "top_k" := Int 40; "max_output_tokens" := Int 8000 ]};
     "gemini-1.0-pro-latest" :=
       {[ "temperature" := Float 7 10; "top_p" := Float 95 100;
          "top_k" := Int 40; "max_output_tokens" := Int 8000 ]};
     "gemini-2.5-pro" :=
       {[ "temperature" := Float 9 10; "top_p" := Float 95 100;
          "top_k" := Int 40; "max_output_tokens" := Int 8000 ]} ]}.

(** The fields of an instance. *)
Record t := {
  model_name : string;
  model : option GenerativeModel
}.

Definition set_model (m : option GenerativeModel) (self : t) : t :=
  {| model_name := model_name self; model := m |}.

(** [load_dotenv()]: variables of the .env file enter the environment
    unless already set there. *)
Definition load_dotenv : M World unit :=
  modify (λ w, set_environ (environ w ∪ dotenv w) w).

(** [os.getenv(key)] *)
Definition getenv (key : string) : M World (option string) :=
  do w <- get; ret (environ w !! key).

(** [genai.configure(api_key=api_key)] *)
Definition configure (api_key : string) : M World unit :=
  do w <- get;
  emit (EvConfigure api_key) ;;
  match sdk_configure (sdk w) api_key with
  | Some e => raise e
  | None => ret tt
  end.

(** [configs.get(name, configs[DEFAULT_MODEL])]: the default argument is
    evaluated first, and indexing raises on a missing key. *)
Definition resolve (configs : gmap string (gmap string num)) (name : string)
  : result (gmap string num) :=
  match configs !! DEFAULT_MODEL with
  | None => Raise (KeyError DEFAULT_MODEL)
  | Some fallback =>
      Ok (match configs !! name with
          | Some cfg => cfg
          | None => fallback
          end)
  end.

(** [genai.GenerativeModel(model_name=..., generation_config=...)] *)
Definition new_model (name : string) (cfg : gmap string num) : M World GenerativeModel :=
  do w <- get;
  emit (EvNewModel name cfg) ;;
  match sdk_new_model (sdk w) name cfg with
  | Some e => raise e
  | None => ret {| gm_model_name := name; gm_generation_config := cfg |}
  end.

Definition _initialize_genai : M (World * t) unit :=
  try_except
    (on_world load_dotenv ;;
     do api_key <- on_world (getenv "GOOGLE_API_KEY");
     (match api_key with
      | Some key => if Text.truthy key then ret tt
                    else raise (ValueError "GOOGLE_API_KEY environment variable not set")
      | None => raise (ValueError "GOOGLE_API_KEY environment variable not set")
      end) ;;
     on_world (configure (default EmptyString api_key)) ;;
     do st <- get;
     let '(w, self) := st in
     do generation_config <- of_result (resolve (model_configs w) (model_name self));
     do handle <- on_world (new_model (model_name self) generation_config);
     modify (λ '(w, self), (w, set_model (Some handle) self)) ;;
     log INFO ("Initialized model: " +:+ model_name self))
    (λ e, log ERROR ("Error initializing Generative AI: " +:+ exn_str e) ;; raise e).

Definition __init__ (name : option string) : M World t :=
  λ w,
    let self := {| model_name := match name with
                                 | Some n => if Text.truthy n then n else DEFAULT_MODEL
                                 | None => DEFAULT_MODEL
                                 end;
                   model := None |} in
    match _initialize_genai (w, self) with
    | (Ok _, (w1, self1), ev) => (Ok self1, w1, ev)
    | (Raise e, (w1, _), ev) => (Raise e, w1, ev)
    end.

(** [self.model.generate_content(message)] followed by [response.text]. *)
Definition model_generate_content (message : string) : M (World * t) string :=
  λ '(w, self),
    match model self with
    | None => (Raise (AttributeError "'NoneType' object has no attribute 'generate_content'"),
               (w, self), [])
    | Some handle =>
        (sdk_generate (sdk w) handle (sent w) message,
         (set_sent (message :: sent w) w, self),
         [EvGenerate handle message])
    end.

(** The body of [generate_content], under the decorator. *)
Definition generate_content_body (message : string) : M (World * t) string :=
  try_except
    (do st <- get;
     (match model st.2 with
      | None => _initialize_genai
      | Some _ => ret tt
      end) ;;
     log INFO ("Starting content generation with model " +:+ model_name st.2) ;;
     log INFO ("Input length: " +:+ Text.of_Z (Text.len message) +:+ " characters") ;;
     do response_text <- model_generate_content message;
     let generated_text := Text.strip response_text in
     if Text.truthy generated_text then
       log INFO ("Generated content length: "
                 +:+ Text.of_Z (Text.len generated_text) +:+ " characters") ;;
       ret generated_text
     else raise (ValueError "Generated content is empty"))
    (λ e, log ERROR ("Error generating content: " +:+ exn_str e) ;; raise e).

Definition generate_content (message : string) : M (World * t) (option string) :=
  retry_on_error 3 5 (generate_content_body message).

Definition add_model_config (name : string) (config : gmap string num) : M World unit :=
  modify (λ w, set_model_configs (<[name := config]> (model_configs w)) w) ;;
  log INFO ("Added configuration for model: " +:+ name).

End GoogleApiCall.

(** [d[key]] *)
Definition dict_index (d : gmap string pyval) (key : string) : result pyval :=
  match d !! key with
  | Some v => Ok v
  | None => Raise (KeyError key)
  end.

(** ** Introduction orchestrator ([main.py]) *)

Module Main.

Record CheckinData := {
  agitation : option Z;
  energy : option string;
  emotions : option (list string);
  preference : option string
}.

Record IntroductionRequest := {
  meditation_type : string;
  duration_minutes : Z;
  user_profile : option string;
  checkin_data : option CheckinData
}.

Definition opt_val {A} (f : A → pyval) (o : option A) : pyval :=
  match o with
  | Some a => f a
  | None => VNone
  end.

Definition _build_introduction_context (request : IntroductionRequest)
  : gmap string pyval :=
  let context : gmap string pyval :=
    {[ "meditation_type" := VStr (meditation_type request);
       "duration_minutes" := VInt (duration_minutes request);
       "user_profile" :=
         VStr (match user_profile request with
               | Some p => if Text.truthy p then p else "New meditator"
               | None => "New meditator"
               end) ]} in
  match checkin_data request with
  | Some checkin =>
      <["meditation_preference" := opt_val VStr (preference checkin)]>
        (<["current_emotions" := opt_val (λ l, VList (VStr <$> l)) (emotions checkin)]>
           (<["energy_level" := opt_val VStr (energy checkin)]>
              (<["agitation_level" := opt_val VInt (agitation checkin)]> context)))
  | None => context
  end.

(** The f-string of [_generate_introduction_text]; the two indexed fields
    raise [KeyError] when absent. *)
Definition introduction_prompt (context : gmap string pyval) : result string :=
  let profile := dict_get context "user_profile" (VStr "New meditator") in
  match dict_index context "meditation_type" with
  | Raise e => Raise e
  | Ok practice =>
  match dict_index context "duration_minutes" with
  | Raise e => Raise e
  | Ok minutes =>
  Ok (Text.nl
   +:+ "You are a wise, experienced meditation teacher starting a session with a student." +:+ Text.nl
   +:+ Text.nl
   +:+ "STUDENT CONTEXT:" +:+ Text.nl
   +:+ "- Profile: " +:+ py_str profile +:+ Text.nl
   +:+ "- Today's practice: " +:+ py_str practice +:+ " for " +:+ py_str minutes +:+ " minutes" +:+ Text.nl
   +:+ "- Current agitation level: " +:+ py_str (dict_get context "agitation_level" (VStr "unknown")) +:+ "/5" +:+ Text.nl
   +:+ "- Energy level: " +:+ py_str (dict_get context "energy_level" (VStr "normal")) +:+ Text.nl
   +:+ "- Present emotions: " +:+ py_str (dict_get context "current_emotions" (VList [])) +:+ Text.nl
   +:+ "- Preference: " +:+ py_str (dict_get context "meditation_preference" (VStr "auto")) +:+ Text.nl
   +:+ Text.nl
   +:+ "INSTRUCTIONS:" +:+ Text.nl
   +:+ "Create a warm, personalized introduction (30-45 words) that:" +:+ Text.nl
   +:+ "1. Acknowledges their current state with compassion" +:+ Text.nl
   +:+ "2. Sets realistic expectations for the session" +:+ Text.nl
   +:+ "3. Gives initial settling guidance" +:+ Text.nl
   +:+ "4. Feels personal and encouraging" +:+ Text.nl
   +:+ Text.nl
   +:+ "Be natural and authentic, not overly spiritual. Speak directly to them." +:+ Text.nl
   +:+ Text.nl
   +:+ "Examples of good tone:" +:+ Text.nl
   +:+ "- " +:+ Text.dquote +:+ "I can sense you're carrying some stress today. That's exactly why we're here..." +:+ Text.dquote +:+ Text.nl
   +:+ "- " +:+ Text.dquote +:+ "Your mind seems quite active right now, which is perfectly normal..." +:+ Text.dquote +:+ Text.nl
   +:+ "- " +:+ Text.dquote +:+ "I notice you're feeling a bit low energy - let's work with that..." +:+ Text.dquote +:+ Text.nl
   +:+ Text.nl
   +:+ "Generate the introduction:" +:+ Text.nl)
  end end.

(** The f-string of the [except] branch. *)
Definition fallback_introduction (context : gmap string pyval) : result string :=
  match dict_index context "duration_minutes" with
  | Raise e => Raise e
  | Ok minutes =>
  match dict_index context "meditation_type" with
  | Raise e => Raise e
  | Ok practice =>
  Ok ("Welcome to your " +:+ py_str minutes +:+ "-minute " +:+ py_str practice
      +:+ " practice. Take a moment to settle in and let's begin this journey together.")
  end end.

(** The state holds the module-level client [google_ai]. *)
Definition _generate_introduction_text (context : gmap string pyval)
  : M (World * GoogleApiCall.t) string :=
  do prompt <- of_result (introduction_prompt context);
  try_except
    (do introduction <- GoogleApiCall.generate_content prompt;
     match introduction with
     | Some text => ret (Text.strip text)
     | None => raise (AttributeError "'NoneType' object has no attribute 'strip'")
     end)
    (λ e,
       log ERROR ("AI generation failed: " +:+ exn_str e) ;;
       of_result (fallback_introduction context)).

End Main.

(** ** Session-plan orchestrator ([session_planner.py]) *)

Module SessionPlanner.

(** A [pandas.DataFrame]: named columns, each a list of cells in row order. *)
Record DataFrame := {
  df_columns : list (string * list pyval)
}.

Record t := {
  csv_path : string;
  phrases_df : option DataFrame;
  google_ai : GoogleApiCall.t
}.

Definition set_google_ai (g : GoogleApiCall.t) (self : t) : t :=
  {| csv_path := csv_path self; phrases_df := phrases_df self; google_ai := g |}.

(** A method of [self.google_ai], run on the planner. *)
Definition on_google_ai {A} (c : M (World * GoogleApiCall.t) A) : M (World * t) A :=
  λ '(w, self),
    let '(r, (w1, g), ev) := c (w, google_ai self) in (r, (w1, set_google_ai g self), ev).

(** [self.phrases_df.iloc[:, 0].tolist()] *)
Definition get_available_phrases (self : t) (meditation_type : string)
  : result (list pyval) :=
  match phrases_df self with
  | None => Raise (AttributeError "'NoneType' object has no attribute 'iloc'")
  | Some df =>
      match df_columns df with
      | [] => Raise (IndexError "single positional indexer is out-of-bounds")
      | (_, cells) :: _ => Ok cells
      end
  end.

Definition _build_ai_prompt (meditation_type : string) (duration_minutes : Z)
    (user_experience user_mood time_of_day previous_pattern : pyval)
    (available_phrase_ids : list pyval) : string :=
  Text.nl
  +:+ "Create a " +:+ Text.of_Z duration_minutes +:+ "-minute " +:+ meditation_type
  +:+ " session for a " +:+ py_str user_experience +:+ " practitioner who is feeling "
  +:+ py_str user_mood +:+ " in the " +:+ py_str time_of_day +:+ "." +:+ Text.nl
  +:+ Text.nl
  +:+ "Available phrases: " +:+ py_str (VList available_phrase_ids) +:+ Text.nl
  +:+ Text.nl
  +:+ "Categories:" +:+ Text.nl
  +:+ "- 1-5: Opening (settling, initial breath awareness)" +:+ Text.nl
  +:+ "- 6-13: Basic breath awareness " +:+ Text.nl
  +:+ "- 14-19: Deep breathing" +:+ Text.nl
  +:+ "- 20-25: Calming body/mind" +:+ Text.nl
  +:+ "- 26-31: Smiling/releasing" +:+ Text.nl
  +:+ "- 32-37: Present moment awareness" +:+ Text.nl
  +:+ Text.nl
  +:+ "Select 6-10 phrases and return ONLY this format:" +:+ Text.nl
  +:+ "sequence,phrase_id,minute" +:+ Text.nl
  +:+ Text.nl
  +:+ "Example:" +:+ Text.nl
  +:+ "1,1,0" +:+ Text.nl
  +:+ "2,6,2" +:+ Text.nl
  +:+ "3,14,5" +:+ Text.nl
  +:+ Text.nl
  +:+ "Just the CSV data, nothing else." +:+ Text.nl.

Definition _create_default_csv (duration_minutes : Z) : string :=
  if duration_minutes <=? 10 then
    "1,1,0" +:+ Text.nl +:+ "2,6,2" +:+ Text.nl +:+ "3,14,5" +:+ Text.nl +:+ "4,32,8"
  else if duration_minutes <=? 20 then
    "1,1,0" +:+ Text.nl +:+ "2,6,2" +:+ Text.nl +:+ "3,14,5" +:+ Text.nl +:+ "4,20,8"
    +:+ Text.nl +:+ "5,26,12" +:+ Text.nl +:+ "6,32,15"
  else
    "1,1,0" +:+ Text.nl +:+ "2,6,3" +:+ Text.nl +:+ "3,14,6" +:+ Text.nl +:+ "4,20,10"
    +:+ Text.nl +:+ "5,26,15" +:+ Text.nl +:+ "6,32,20" +:+ Text.nl +:+ "7,35,25".

Definition create_session_plan (meditation_type : string) (duration_minutes : Z)
    (user_context : option (gmap string pyval)) : M (World * t) string :=
  do st <- get;
  do available_phrase_ids <- of_result (get_available_phrases st.2 meditation_type);
  let context : gmap string pyval := default ∅ user_context in
  let user_experience := dict_get context "experience_level" (VStr "beginner") in
  let user_mood := dict_get context "mood" (VStr "neutral") in
  let time_of_day := dict_get context "time_of_day" (VStr "any") in
  let previous_pattern := dict_get context "previous_sessions" (VStr "none") in
  let prompt :=
    _build_ai_prompt meditation_type duration_minutes user_experience user_mood
      time_of_day previous_pattern (take 37 available_phrase_ids) in
  try_except
    (do csv_response <- on_google_ai (GoogleApiCall.generate_content prompt);
     match csv_response with
     | Some text => ret (Text.strip text)
     | None => raise (AttributeError "'NoneType' object has no attribute 'strip'")
     end)
    (λ e,
       log ERROR ("Error creating session plan: " +:+ exn_str e) ;;
       ret (_create_default_csv duration_minutes)).

End SessionPlanner.

(** ** Stub SDKs and sample states, used to run the model *)

Module Stub.

(** Generation is permanently down. *)
Definition failing_sdk : Sdk :=
  {| sdk_configure := λ _, None;
     sdk_new_model := λ _ _, None;
     sdk_generate := λ _ _ _, Raise (ApiError "503 service unavailable") |}.

(** Every answer is blank. *)
Definition blank_sdk : Sdk :=
  {| sdk_configure := λ _, None;
     sdk_new_model := λ _ _, None;
     sdk_generate := λ _ _ _, Ok "   " |}.

(** Answers with the prompt it was sent, padded with blanks. *)
Definition echo_sdk : Sdk :=
  {| sdk_configure := λ _, None;
     sdk_new_model := λ _ _, None;
     sdk_generate := λ _ _ prompt, Ok ("  " +:+ prompt +:+ " ") |}.

Definition world (env : gmap string string) (s : Sdk) : World :=
  {| environ := env; dotenv := ∅; model_configs := GoogleApiCall.MODEL_CONFIGS;
     sent := []; sdk := s |}.

Definition with_key : gmap string string := {[ "GOOGLE_API_KEY" := "secret" ]}.

(** A client as [GoogleApiCall()] leaves it when construction succeeds. *)
Definition client : GoogleApiCall.t :=
  {| GoogleApiCall.model_name := GoogleApiCall.DEFAULT_MODEL;
     GoogleApiCall.model :=
       Some {| gm_model_name := GoogleApiCall.DEFAULT_MODEL;
               gm_generation_config :=
                 {[ "temperature" := Float 5 10; "top_p" := Float 95 100;
                    "top_k" := Int 40; "max_output_tokens" := Int 8000 ]} |} |}.

Definition table : SessionPlanner.DataFrame :=
  {| SessionPlanner.df_columns :=
       [("id", [VInt 1; VInt 2; VInt 6]); ("text", [VStr "Settle"; VStr "Breathe"; VStr "Notice"])] |}.

Definition planner : SessionPlanner.t :=
  {| SessionPlanner.csv_path := "phrase_list_with_audio.csv";
     SessionPlanner.phrases_df := Some table;
     SessionPlanner.google_ai := client |}.

Definition body_scan_request : Main.IntroductionRequest :=
  {| Main.meditation_type := "body_scan"; Main.duration_minutes := 20;
     Main.user_profile := None; Main.checkin_data := None |}.

Definition breath_request : Main.IntroductionRequest :=
  {| Main.meditation_type := "breath_focus"; Main.duration_minutes := 15;
     Main.user_profile := Some "Busy parent"; Main.checkin_data := None |}.

(** An operation that raises on every invocation, counting its calls. *)
Definition always_fails : M nat string :=
  λ n, (Raise (ApiError ("failure " +:+ Text.of_Z (Z.of_nat n))), Datatypes.S n, []).

End Stub.

(** ** Vocabulary of the statements *)

(** The state after [k] invocations of [op] in a row. *)
Definition state_after {S A} (op : M S A) (k : nat) (s : S) : S :=
  Nat.iter k (λ s, (op s).1.2) s.


(** The sentence the introduction orchestrator falls back on. *)
Definition fallback_sentence (minutes practice : pyval) : string :=
  "Welcome to your " +:+ py_str minutes +:+ "-minute " +:+ py_str practice
  +:+ " practice. Take a moment to settle in and let's begin this journey together.".

(** A run of [add_model_config] calls. *)
Fixpoint register_all (calls : list (string * gmap string num)) : M World unit :=
  match calls with
  | [] => ret tt
  | (name, config) :: rest => GoogleApiCall.add_model_config name config ;; register_all rest
  end.

(** The three fallback session plans, as the text they are. *)
Definition fixture_upto_10 : string := "1,1,0
2,6,2
3,14,5
4,32,8".

Definition fixture_upto_20 : string := "1,1,0
2,6,2
3,14,5
4,20,8
5,26,12
6,32,15".

Definition fixture_over_20 : string := "1,1,0
2,6,3
3,14,6
4,20,10
5,26,15
6,32,20
7,35,25".

(** The prompt [create_session_plan] sends. *)
Definition session_plan_prompt (meditation_type : string) (duration_minutes : Z)
    (user_context : option (gmap string pyval)) (ids : list pyval) : string :=
  let context : gmap string pyval := default ∅ user_context in
  SessionPlanner._build_ai_prompt meditation_type duration_minutes
    (dict_get context "experience_level" (VStr "beginner"))
    (dict_get context "mood" (VStr "neutral"))
    (dict_get context "time_of_day" (VStr "any"))
    (dict_get context "previous_sessions" (VStr "none"))
    (take 37 ids).

(** The registry once the calls have run. *)
Definition registry_after (calls : list (string * gmap string num)) (w : World)
  : gmap string (gmap string num) :=
  model_configs (register_all calls w).1.2.

(** The process as it starts: the registry is the one of the class body. *)
Definition at_startup (w : World) : World :=
  set_model_configs GoogleApiCall.MODEL_CONFIGS w.

(** ** Further sample data *)

(** An operation that raises on its first two invocations and returns on
    the third; the state counts the invocations. *)
Definition flaky : M nat string :=
  λ n, if (n <? 2)%nat
       then (Raise (ApiError "busy"), Datatypes.S n, [])
       else (Ok "done", Datatypes.S n, []).

(** A remote that answers with blanks until a prompt has been sent, and
    with text from then on. *)
Definition recovering_sdk : Sdk :=
  {| sdk_configure := λ _, None;
     sdk_new_model := λ _ _, None;
     sdk_generate := λ _ sent_before _,
       match sent_before with
       | [] => Ok "   "
       | _ :: _ => Ok "  Breathe in. "
       end |}.

(** A client that holds no handle. *)
Definition bare_client : GoogleApiCall.t :=
  {| GoogleApiCall.model_name := GoogleApiCall.DEFAULT_MODEL; GoogleApiCall.model := None |}.

(** The model name a client ends up with. *)
Definition chosen_model (name : option string) : string :=
  match name with
  | Some n => if Text.truthy n then n else GoogleApiCall.DEFAULT_MODEL
  | None => GoogleApiCall.DEFAULT_MODEL
  end.

(** The config registered last for [name] in a run of calls, if any. *)
Fixpoint last_registered (name : string) (calls : list (string * gmap string num))
  : option (gmap string num) :=
  match calls with
  | [] => None
  | (n, cfg) :: rest =>
      match last_registered name rest with
      | Some later => Some later
      | None => if decide (n = name) then Some cfg else None
      end
  end.

(** An SDK that refuses every API key. *)
Definition rejecting_sdk : Sdk :=
  {| sdk_configure := λ _, Some (ApiError "invalid API key");
     sdk_new_model := λ _ _, None;
     sdk_generate := λ _ _ prompt, Ok prompt |}.

(** The profile line of the introduction prompt. *)
Definition profile_of (request : Main.IntroductionRequest) : string :=
  match Main.user_profile request with
  | Some p => if Text.truthy p then p else "New meditator"
  | None => "New meditator"
  end.

(** A request that carries check-in data, two fields of it left out. *)
Definition checked_in_request : Main.IntroductionRequest :=
  {| Main.meditation_type := "loving_kindness"; Main.duration_minutes := 10;
     Main.user_profile := Some EmptyString;
     Main.checkin_data :=
       Some {| Main.agitation := None; Main.energy := None;
               Main.emotions := Some ["stress"; "joy"]; Main.preference := Some "auto" |} |}.

(** A phrase table of fifty phrases, and a planner on it. *)
Definition long_table : SessionPlanner.DataFrame :=
  {| SessionPlanner.df_columns := [("id", VInt <$> (Z.of_nat <$> seq 1 50))] |}.

Definition long_planner : SessionPlanner.t :=
  {| SessionPlanner.csv_path := "phrase_list_with_audio.csv";
     SessionPlanner.phrases_df := Some long_table;
     SessionPlanner.google_ai := Stub.client |}.

(** The same table cut after its first forty phrases. *)
Definition shorter_planner : SessionPlanner.t :=
  {| SessionPlanner.csv_path := "phrase_list_with_audio.csv";
     SessionPlanner.phrases_df :=
       Some {| SessionPlanner.df_columns := [("id", VInt <$> (Z.of_nat <$> seq 1 40))] |};
     SessionPlanner.google_ai := Stub.client |}.


(** ** Session folders ([main.py]) *)

Module Sessions.

(** The part of the disk the service works on: the directory
    [audio/sessions], absent or holding named entries, each a directory
    ([true]) or a file ([false]). *)
Record Disk := {
  sessions_dir : option (gmap string bool)
}.

(** [os.listdir]: the names, in an order of the system's choosing. *)
Definition listdir (entries : gmap string bool) : list string :=
  (map_to_list entries).*1.

(** [os.path.isdir] of an entry of the directory. *)
Definition isdir (entries : gmap string bool) (name : string) : bool :=
  match entries !! name with
  | Some true => true
  | _ => false
  end.

(** [shutil.rmtree] of an entry of the directory. *)
Definition rmtree (name : string) : M Disk unit :=
  modify (λ disk, {| sessions_dir := delete name <$> sessions_dir disk |}).

(** [for x in l: body x] *)
Fixpoint for_each {S A} (l : list A) (body : A → M S unit) : M S unit :=
  match l with
  | [] => ret tt
  | x :: rest => body x ;; for_each rest body
  end.

(** [sessions.sort(reverse=True)]: greatest name first, in the order of
    [str]. *)
Definition sort_reverse (names : list string) : list string :=
  merge_sort (flip String.le) names.

Definition cleanup_old_sessions : M Disk unit :=
  do disk <- get;
  match sessions_dir disk with
  | None => ret tt
  | Some entries =>
      let sessions := filter (λ d, isdir entries d = true) (listdir entries) in
      let sessions := sort_reverse sessions in
      for_each (drop 5 sessions)
        (λ old_session,
           rmtree old_session ;;
           log INFO ("Cleaned up old session: " +:+ old_session))
  end.

(** The session folders of a directory. *)
Definition session_dirs (entries : gmap string bool) : list string :=
  filter (λ d, isdir entries d = true) (listdir entries).

(** A directory with seven session folders and a stray file. *)
Definition crowded : gmap string bool :=
  {[ "session_1700000001" := true; "session_1700000002" := true;
     "session_1700000003" := true; "session_1700000004" := true;
     "session_1700000005" := true; "session_1700000006" := true;
     "session_999" := true; "notes.txt" := false ]}.

End Sessions.

(** ** WAV files ([voice_service.py]) *)

Module VoiceService.

(** An argument of [struct.pack], by its format code: [4s], [I] or [H]. *)
Inductive field :=
| Bytes4 (b : list Byte.byte)
| UInt32 (n : Z)
| UInt16 (n : Z).

Definition byte_of_Z (n : Z) : Byte.byte :=
  default Byte.x00 (Byte.of_N (Z.to_N (n mod 256))).

(** The [width] low bytes of [n], least significant first. *)
Fixpoint le_bytes (width : nat) (n : Z) : list Byte.byte :=
  match width with
  | O => []
  | Datatypes.S w => byte_of_Z n :: le_bytes w (n / 256)
  end.

(** One field under the byte order [<]: a [4s] is cut or filled with null
    bytes to four bytes; an integer out of the range of its code raises
    [struct.error] ([None]). *)
Definition pack_field (f : field) : option (list Byte.byte) :=
  match f with
  | Bytes4 b => Some (take 4 (b ++ replicate 4 Byte.x00))
  | UInt32 n => if (0 <=? n) && (n <? 2 ^ 32) then Some (le_bytes 4 n) else None
  | UInt16 n => if (0 <=? n) && (n <? 2 ^ 16) then Some (le_bytes 2 n) else None
  end.

(** [struct.pack("<...", ...)]: the fields one after the other, no padding. *)
Fixpoint pack (fields : list field) : option (list Byte.byte) :=
  match fields with
  | [] => Some []
  | f :: rest =>
      match pack_field f, pack rest with
      | Some b, Some bs => Some (b ++ bs)
      | _, _ => None
      end
  end.

Definition _create_wav_file (audio_data : list Byte.byte) : option (list Byte.byte) :=
  let len := Z.of_nat (length audio_data) in
  match pack [Bytes4 (String.list_byte_of_string "RIFF"); UInt32 (len + 36);
              Bytes4 (String.list_byte_of_string "WAVE");
              Bytes4 (String.list_byte_of_string "fmt "); UInt32 16; UInt16 1;
              UInt16 1; UInt32 24000; UInt32 48000; UInt16 2; UInt16 16;
              Bytes4 (String.list_byte_of_string "data"); UInt32 len] with
  | Some header => Some (header ++ audio_data)
  | None => None
  end.

(** The number a run of bytes stands for, least significant byte first. *)
Definition le_value (bs : list Byte.byte) : Z :=
  foldr (λ b acc, Z.of_N (Byte.to_N b) + 256 * acc) 0 bs.

(** The bytes [first .. first + count - 1] of a file. *)
Definition slice (first count : nat) (bs : list Byte.byte) : list Byte.byte :=
  take count (drop first bs).

End VoiceService.

(** * Properties *)

(** ** Text lemmas *)

Lemma append_assoc (a b c : string) : (a +:+ b) +:+ c = a +:+ b +:+ c.
Proof.
  induction a as [|x a IH]; [reflexivity|].
  change (String x ((a +:+ b) +:+ c) = String x (a +:+ b +:+ c)). now rewrite IH.
Qed.

Lemma occurs_here (needle rest : string) : Text.occurs_in needle (needle +:+ rest).
Proof. now exists EmptyString, rest. Qed.

Lemma occurs_later (needle a b : string) :
  Text.occurs_in needle b → Text.occurs_in needle (a +:+ b).
Proof.
  intros (pre & suf & ->). exists (a +:+ pre), suf. now rewrite append_assoc.
Qed.

Lemma occurs_cons (needle : string) (c : ascii) (b : string) :
  Text.occurs_in needle b → Text.occurs_in needle (String c b).
Proof. apply (occurs_later needle (String c EmptyString) b). Qed.

Lemma truthy_false (s : string) : Text.truthy s = false ↔ s = EmptyString.
Proof. destruct s; cbn; split; congruence. Qed.

Lemma rstrip_idem (s : string) : Text.rstrip (Text.rstrip s) = Text.rstrip s.
Proof.
  induction s as [|c s IH]; [reflexivity|].
  cbn. destruct (Text.rstrip s) as [|c' r] eqn:E.
  - destruct (Text.isspace c) eqn:Ec; cbn; [reflexivity | now rewrite Ec].
  - cbn in IH |- *. destruct (Text.rstrip r) as [|c'' r'] eqn:E'.
    + destruct (Text.isspace c'); [discriminate|]. now inversion IH.
    + now inversion IH.
Qed.

(** Trimming on the right keeps a first character that is not a space. *)
Lemma rstrip_head (c : ascii) (s : string) :
  Text.isspace c = false → ∃ r, Text.rstrip (String c s) = String c r.
Proof.
  intros Hc. cbn. destruct (Text.rstrip s); rewrite ?Hc; eauto.
Qed.

Lemma lstrip_shape (s : string) :
  Text.lstrip s = EmptyString
  ∨ ∃ c r, Text.lstrip s = String c r ∧ Text.isspace c = false.
Proof.
  induction s as [|c s IH]; [now left|].
  cbn. destruct (Text.isspace c) eqn:Ec; [exact IH | right; eauto].
Qed.

(** [strip] leaves nothing more to trim. *)
Lemma strip_idem (s : string) : Text.strip (Text.strip s) = Text.strip s.
Proof.
  unfold Text.strip. destruct (lstrip_shape s) as [-> | (c & r & -> & Hc)]; [reflexivity|].
  destruct (rstrip_head c r Hc) as [r' E]. rewrite E.
  cbn [Text.lstrip]. rewrite Hc, <- E. apply rstrip_idem.
Qed.

Lemma lstrip_all_space (s : string) :
  Text.all_space s = true → Text.lstrip s = EmptyString.
Proof.
  induction s as [|c s IH]; [reflexivity|].
  cbn. destruct (Text.isspace c); [exact IH | discriminate].
Qed.

(** Blank text (empty or whitespace only) trims to the empty text. *)
Lemma strip_all_space (s : string) :
  Text.all_space s = true → Text.strip s = EmptyString.
Proof. intros H. unfold Text.strip. now rewrite lstrip_all_space. Qed.

Lemma rstrip_empty (s : string) :
  Text.rstrip s = EmptyString → Text.all_space s = true.
Proof.
  induction s as [|c s IH]; [reflexivity|].
  cbn. destruct (Text.rstrip s).
  - destruct (Text.isspace c); [intros _; now rewrite IH | discriminate].
  - discriminate.
Qed.

Lemma strip_empty_iff (s : string) :
  Text.strip s = EmptyString ↔ Text.all_space s = true.
Proof.
  split; [|apply strip_all_space].
  unfold Text.strip. induction s as [|c s IH]; [reflexivity|].
  cbn. destruct (Text.isspace c) eqn:Ec; [exact IH|].
  intros H. destruct (rstrip_head c s Ec) as [r E]. congruence.
Qed.

(** ** The retry policy *)

Ltac run := unfold bind, ret, raise, log, emit, try_except, of_result, get, modify.

Section RetryFacts.
Context {S A : Type}.
Variables (max_retries delay : Z).
Variable func : M S A.

Local Abbreviation loop := (retry_loop max_retries delay func).

(** The loop, as the source has it: one pass, then the loop again. *)
Lemma retry_loop_step (fuel : nat) (retries : Z) (s : S) :
  retries < max_retries →
  loop (Datatypes.S fuel) retries s =
    match func s with
    | (Ok v, s1, ev) => (Ok (Some v), s1, [EvAttempt ev])
    | (Raise e, s1, ev) =>
        if retries + 1 =? max_retries then
          (Raise e, s1,
           [EvAttempt ev;
            EvLog ERROR ("Final error after " +:+ Text.of_Z max_retries
                         +:+ " retries: " +:+ exn_str e)])
        else if delay <? 0 then
          (Raise (ValueError "sleep length must be non-negative"), s1,
           [EvAttempt ev;
            EvLog WARNING ("Error occurred: " +:+ exn_str e +:+ ". Retry "
                           +:+ Text.of_Z (retries + 1) +:+ "/" +:+ Text.of_Z max_retries
                           +:+ " in " +:+ Text.of_Z delay +:+ " seconds...")])
        else
          let '(r, s2, ev2) := loop fuel (retries + 1) s1 in
          (r, s2,
           EvAttempt ev
           :: EvLog WARNING ("Error occurred: " +:+ exn_str e +:+ ". Retry "
                             +:+ Text.of_Z (retries + 1) +:+ "/" +:+ Text.of_Z max_retries
                             +:+ " in " +:+ Text.of_Z delay +:+ " seconds...")
           :: EvSleep delay :: ev2)
    end.
Proof.
  intros Hlt. cbn [retry_loop]. apply Z.ltb_lt in Hlt as ->.
  unfold invoke, time_sleep. run.
  destruct (func s) as [[[v|e] s1] ev]; [reflexivity|].
  destruct (retries + 1 =? max_retries); [reflexivity|].
  destruct (delay <? 0); [reflexivity|].
  now destruct (loop fuel (retries + 1) s1) as [[r s2] ev2].
Qed.

Lemma retry_loop_exit (fuel : nat) (retries : Z) (s : S) :
  max_retries ≤ retries → loop fuel retries s = (Ok None, s, []).
Proof.
  intros Hge. apply Z.ltb_ge in Hge. destruct fuel; cbn [retry_loop]; now rewrite Hge.
Qed.

(** The fuel [wrapper] supplies is never used up: any two sufficient
    amounts give the same run. *)
Lemma retry_loop_fuel (f1 f2 : nat) (retries : Z) (s : S) :
  max_retries - retries ≤ Z.of_nat f1 →
  max_retries - retries ≤ Z.of_nat f2 →
  loop f1 retries s = loop f2 retries s.
Proof.
  revert f2 retries s. induction f1 as [|f1 IH]; intros f2 retries s H1 H2.
  - rewrite !retry_loop_exit by lia. reflexivity.
  - destruct (Z_lt_le_dec retries max_retries) as [Hlt|Hge];
      [|rewrite !retry_loop_exit by lia; reflexivity].
    destruct f2 as [|f2]; [lia|].
    rewrite !retry_loop_step by assumption.
    destruct (func s) as [[[v|e] s1] ev]; [reflexivity|].
    destruct (retries + 1 =? max_retries); [reflexivity|].
    destruct (delay <? 0); [reflexivity|].
    rewrite (IH f2) by lia. reflexivity.
Qed.

(** [wrapper] satisfies the equation of the source's loop at every value
    of [retries] it reaches. *)
Lemma wrapper_unfold (retries : Z) (s : S) :
  0 ≤ retries < max_retries →
  loop (Z.to_nat max_retries) retries s =
    match func s with
    | (Ok v, s1, ev) => (Ok (Some v), s1, [EvAttempt ev])
    | (Raise e, s1, ev) =>
        if retries + 1 =? max_retries then
          (Raise e, s1,
           [EvAttempt ev;
            EvLog ERROR ("Final error after " +:+ Text.of_Z max_retries
                         +:+ " retries: " +:+ exn_str e)])
        else if delay <? 0 then
          (Raise (ValueError "sleep length must be non-negative"), s1,
           [EvAttempt ev;
            EvLog WARNING ("Error occurred: " +:+ exn_str e +:+ ". Retry "
                           +:+ Text.of_Z (retries + 1) +:+ "/" +:+ Text.of_Z max_retries
                           +:+ " in " +:+ Text.of_Z delay +:+ " seconds...")])
        else
          let '(r, s2, ev2) := loop (Z.to_nat max_retries) (retries + 1) s1 in
          (r, s2,
           EvAttempt ev
           :: EvLog WARNING ("Error occurred: " +:+ exn_str e +:+ ". Retry "
                             +:+ Text.of_Z (retries + 1) +:+ "/" +:+ Text.of_Z max_retries
                             +:+ " in " +:+ Text.of_Z delay +:+ " seconds...")
           :: EvSleep delay :: ev2)
    end.
Proof.
  intros [H0 Hlt].
  destruct (Z.to_nat max_retries) as [|f] eqn:E; [lia|].
  rewrite retry_loop_step by assumption.
  destruct (func s) as [[[v|e] s1] ev]; [reflexivity|].
  destruct (retries + 1 =? max_retries); [reflexivity|].
  destruct (delay <? 0); [reflexivity|].
  rewrite (retry_loop_fuel f (Datatypes.S f)) by lia. reflexivity.
Qed.

End RetryFacts.

Lemma state_after_S {S A} (op : M S A) (k : nat) (s : S) :
  state_after op (Datatypes.S k) s = state_after op k (op s).1.2.
Proof. unfold state_after. now rewrite Nat.iter_succ_r. Qed.

Lemma invocations_cons_attempt (inner : list event) (ev : list event) :
  invocations (EvAttempt inner :: ev) = Datatypes.S (invocations ev).
Proof. reflexivity. Qed.






(** With a delay that [time.sleep] refuses, the first failure that is not
    the last ends the run. *)
Example retry_negative_delay :
  (retry_on_error 2 (-1) Stub.always_fails 0%nat).1
  = (Raise (ValueError "sleep length must be non-negative"), 1%nat).
Proof. reflexivity. Qed.

(** C2 as stated fails at [max_retries = 0]: the wrapper returns [None]
    without invoking the operation. *)
Lemma retry_zero_never_invokes :
  ¬ (∀ n : Z, n = 0 ∨ n = 1 →
       (1 ≤ invocations (retry_on_error n 5 Stub.always_fails 0%nat).2)%nat).
Proof.
  intros H. specialize (H 0 (or_introl eq_refl)). vm_compute in H. lia.
Qed.

(** C2, amended: with [max_retries = 1] the wrapper invokes the operation
    exactly once; with [max_retries = 0] it does not invoke it, leaves the
    state alone and returns [None]. *)
Theorem retry_one_invokes_once_zero_none {S A} (d : Z) (op : M S A) (s : S) :
  invocations (retry_on_error 1 d op s).2 = 1%nat
  ∧ retry_on_error 0 d op s = (Ok None, s, []).
Proof.
  split; [|reflexivity].
  unfold retry_on_error, wrapper. change (Z.to_nat 1) with 1%nat.
  rewrite retry_loop_step by lia.
  destruct (op s) as [[[v|e] s1] ev]; reflexivity.
Qed.


(** ** The generation client *)

(** One attempt of [generate_content] on a client that holds a handle. *)
Lemma body_with_handle (w : World) (self : GoogleApiCall.t) (h : GenerativeModel) (message : string) :
  GoogleApiCall.model self = Some h →
  GoogleApiCall.generate_content_body message (w, self) =
  let st := (set_sent (message :: sent w) w, self) in
  let head := [EvLog INFO ("Starting content generation with model " +:+ GoogleApiCall.model_name self);
               EvLog INFO ("Input length: " +:+ Text.of_Z (Text.len message) +:+ " characters");
               EvGenerate h message] in
  match sdk_generate (sdk w) h (sent w) message with
  | Ok raw =>
      if Text.truthy (Text.strip raw) then
        (Ok (Text.strip raw), st,
         head ++ [EvLog INFO ("Generated content length: "
                              +:+ Text.of_Z (Text.len (Text.strip raw)) +:+ " characters")])
      else
        (Raise (ValueError "Generated content is empty"), st,
         head ++ [EvLog ERROR "Error generating content: Generated content is empty"])
  | Raise e =>
      (Raise e, st, head ++ [EvLog ERROR ("Error generating content: " +:+ exn_str e)])
  end.
Proof.
  intros Hm. unfold GoogleApiCall.generate_content_body, GoogleApiCall.model_generate_content.
  run. cbn. rewrite Hm. cbn. rewrite Hm.
  destruct (sdk_generate (sdk w) h (sent w) message) as [raw|e]; [|reflexivity].
  destruct (Text.truthy (Text.strip raw)); reflexivity.
Qed.

(** An attempt that returns, returns non-empty trimmed text. *)
Lemma body_ok_text (st st' : World * GoogleApiCall.t) (message text : string) (ev : list event) :
  GoogleApiCall.generate_content_body message st = (Ok text, st', ev) →
  Text.truthy text = true ∧ Text.strip text = text.
Proof.
  destruct st as [w self].
  unfold GoogleApiCall.generate_content_body, GoogleApiCall.model_generate_content.
  run. cbn.
  destruct (GoogleApiCall.model self) as [h|] eqn:Hm.
  - cbn. rewrite Hm.
    destruct (sdk_generate (sdk w) h (sent w) message) as [raw|e]; [|discriminate].
    destruct (Text.truthy (Text.strip raw)) eqn:Ht; [|discriminate].
    intros [= <- _ _]. split; [exact Ht | apply strip_idem].
  - destruct (GoogleApiCall._initialize_genai (w, self)) as [[[u|e] [w1 self1]] ev1];
      [|discriminate].
    cbn. destruct (GoogleApiCall.model self1) as [h|]; [|discriminate].
    destruct (sdk_generate (sdk w1) h (sent w1) message) as [raw|e]; [|discriminate].
    destruct (Text.truthy (Text.strip raw)) eqn:Ht; [|discriminate].
    intros [= <- _ _]. split; [exact Ht | apply strip_idem].
Qed.

(** What the loop can end with, given what one invocation can end with:
    [I] is kept by failed invocations, [P] holds of returned values and [Q] of
    raised exceptions. *)
Lemma retry_loop_outcome {S A} (n d : Z) (func : M S A)
    (I : S → Prop) (P : A → Prop) (Q : exn → Prop) :
  0 ≤ d →
  (∀ s, I s → match func s with
              | (Ok v, _, _) => P v
              | (Raise e, s', _) => Q e ∧ I s'
              end) →
  ∀ (fuel : nat) (retries : Z) (s : S),
    n - retries ≤ Z.of_nat fuel → I s →
    match retry_loop n d func fuel retries s with
    | (Ok (Some v), _, _) => P v ∧ retries < n
    | (Ok None, s', ev) => n ≤ retries ∧ s' = s ∧ ev = []
    | (Raise e, _, ev) =>
        Q e ∧ retries < n
        ∧ invocations ev = Z.to_nat (n - retries)
        ∧ sleeps ev = replicate (Z.to_nat (n - retries - 1)) d
    end.
Proof.
  intros Hd Hfunc fuel. induction fuel as [|fuel IH]; intros retries s Hfuel Hs.
  - rewrite retry_loop_exit by lia. repeat split; lia.
  - destruct (Z_lt_le_dec retries n) as [Hlt|Hge];
      [|rewrite retry_loop_exit by lia; repeat split; lia].
    rewrite retry_loop_step by assumption.
    specialize (Hfunc s Hs).
    destruct (func s) as [[[v|e] s1] ev]; [split; assumption|].
    destruct Hfunc as [Hq Hs1].
    destruct (Z.eqb_spec (retries + 1) n) as [Heq|Hne].
    + split; [assumption|]. split; [assumption|].
      replace (Z.to_nat (n - retries)) with 1%nat by lia.
      replace (Z.to_nat (n - retries - 1)) with 0%nat by lia. now split.
    + apply Z.ltb_ge in Hd as ->.
      specialize (IH (retries + 1) s1 ltac:(lia) Hs1).
      destruct (retry_loop n d func fuel (retries + 1) s1) as [[[[v|]|e'] s2] ev2].
      * intuition lia.
      * lia.
      * destruct IH as (Hq' & Hlt' & Hinv & Hsl). split; [assumption|]. split; [assumption|].
        replace (Z.to_nat (n - retries)) with (Datatypes.S (Z.to_nat (n - (retries + 1)))) by lia.
        replace (Z.to_nat (n - retries - 1))
          with (Datatypes.S (Z.to_nat (n - (retries + 1) - 1))) by lia.
        rewrite invocations_cons_attempt. unfold invocations, attempts, sleeps in *.
        cbn. now rewrite Hinv, Hsl.
Qed.

(** C3: [generate_content] never swallows an error: it returns non-empty
    trimmed text, or raises once its three attempts are used up (never
    [None]).  An attempt whose remote answer is blank (empty or whitespace
    only) raises, as an attempt whose remote call raised does; and when every
    answer is blank the call is retried like any other failure: three
    invocations, two sleeps of five seconds, then the error is raised. *)
Theorem generate_content_returns_text_or_raises
    (w : World) (self : GoogleApiCall.t) (message : string) :
  match GoogleApiCall.generate_content message (w, self) with
  | (Ok (Some text), _, _) => Text.truthy text = true ∧ Text.strip text = text
  | (Ok None, _, _) => False
  | (Raise _, _, ev) => invocations ev = 3%nat ∧ sleeps ev = [5; 5]
  end
  ∧ (∀ h raw,
       GoogleApiCall.model self = Some h →
       sdk_generate (sdk w) h (sent w) message = Ok raw →
       Text.all_space raw = true →
       (GoogleApiCall.generate_content_body message (w, self)).1.1
       = Raise (ValueError "Generated content is empty"))
  ∧ (∀ h e,
       GoogleApiCall.model self = Some h →
       sdk_generate (sdk w) h (sent w) message = Raise e →
       (GoogleApiCall.generate_content_body message (w, self)).1.1 = Raise e)
  ∧ (∀ h,
       GoogleApiCall.model self = Some h →
       (∀ sent_before, ∃ raw, sdk_generate (sdk w) h sent_before message = Ok raw
                              ∧ Text.all_space raw = true) →
       ∃ st ev,
         GoogleApiCall.generate_content message (w, self)
         = (Raise (ValueError "Generated content is empty"), st, ev)
         ∧ invocations ev = 3%nat ∧ sleeps ev = [5; 5]).
Proof.
  split; [|split; [|split]].
  - pose proof (retry_loop_outcome 3 5 (GoogleApiCall.generate_content_body message)
                  (λ _, True)
                  (λ text, Text.truthy text = true ∧ Text.strip text = text)
                  (λ _, True) ltac:(lia)) as H.
    assert (Hbody : ∀ s : World * GoogleApiCall.t, True →
              match GoogleApiCall.generate_content_body message s with
              | (Ok v, _, _) => Text.truthy v = true ∧ Text.strip v = v
              | (Raise _, _, _) => True ∧ True
              end).
    { intros s _.
      destruct (GoogleApiCall.generate_content_body message s) as [[[v|e] s'] ev] eqn:E;
        [exact (body_ok_text s s' message v ev E) | auto]. }
    specialize (H Hbody (Z.to_nat 3) 0 (w, self) ltac:(lia) Logic.I).
    unfold GoogleApiCall.generate_content, retry_on_error, wrapper.
    destruct (retry_loop 3 5 _ (Z.to_nat 3) 0 (w, self)) as [[[[text|]|e] st] ev].
    + tauto.
    + lia.
    + destruct H as (_ & _ & Hinv & Hsl). split; assumption.
  - intros h raw Hm Hraw Hblank. rewrite (body_with_handle w self h message Hm), Hraw.
    cbn zeta. now rewrite (strip_all_space raw Hblank).
  - intros h e Hm He. now rewrite (body_with_handle w self h message Hm), He.
  - intros h Hm Hblank.
    pose proof (retry_loop_outcome 3 5 (GoogleApiCall.generate_content_body message)
                  (λ s, sdk s.1 = sdk w ∧ s.2 = self)
                  (λ _, False)
                  (λ e, e = ValueError "Generated content is empty") ltac:(lia)) as H.
    unfold GoogleApiCall.generate_content, retry_on_error, wrapper.
    lapply H.
    + clear H. intros H. specialize (H (Z.to_nat 3) 0 (w, self) ltac:(lia) (conj eq_refl eq_refl)).
      destruct (retry_loop 3 5 _ (Z.to_nat 3) 0 (w, self)) as [[[[text|]|e] st] ev].
      * tauto.
      * lia.
      * destruct H as (-> & _ & Hinv & Hsl). eauto.
    + intros [w' self'] [Hsdk Hself]. cbn in Hsdk, Hself. subst self'.
      rewrite (body_with_handle w' self h message Hm), Hsdk.
      destruct (Hblank (sent w')) as (raw & -> & Hb).
      cbn zeta. rewrite (strip_all_space raw Hb). cbn. auto.
Qed.

Lemma generate_content_returns_text_or_raises_witness :
  ∃ st ev,
    GoogleApiCall.generate_content "hello" (Stub.world Stub.with_key Stub.blank_sdk, Stub.client)
    = (Raise (ValueError "Generated content is empty"), st, ev)
    ∧ invocations ev = 3%nat ∧ sleeps ev = [5; 5].
Proof.
  destruct (generate_content_returns_text_or_raises
              (Stub.world Stub.with_key Stub.blank_sdk) Stub.client "hello")
    as (_ & _ & _ & H).
  eapply H; [reflexivity|].
  intros sent_before. eexists. split; reflexivity.
Defined.

(** ** The introduction orchestrator *)

Lemma introduction_prompt_keys (context : gmap string pyval) :
  match Main.introduction_prompt context with
  | Ok _ => ∃ practice minutes,
      context !! "meditation_type" = Some practice
      ∧ context !! "duration_minutes" = Some minutes
  | Raise e => e = KeyError "meditation_type" ∨ e = KeyError "duration_minutes"
  end.
Proof.
  unfold Main.introduction_prompt, dict_index.
  destruct (context !! "meditation_type") as [practice|]; [|now left].
  destruct (context !! "duration_minutes") as [minutes|]; [|now right].
  eauto.
Qed.

Lemma fallback_introduction_ok (context : gmap string pyval) (practice minutes : pyval) :
  context !! "meditation_type" = Some practice →
  context !! "duration_minutes" = Some minutes →
  Main.fallback_introduction context = Ok (fallback_sentence minutes practice).
Proof.
  intros Hp Hm. unfold Main.fallback_introduction, dict_index. now rewrite Hm, Hp.
Qed.

(** The orchestrator, in terms of what [generate_content] did. *)
Lemma generate_introduction_text_cases (context : gmap string pyval)
    (practice minutes : pyval) (prompt : string) (st : World * GoogleApiCall.t) :
  context !! "meditation_type" = Some practice →
  context !! "duration_minutes" = Some minutes →
  Main.introduction_prompt context = Ok prompt →
  Main._generate_introduction_text context st =
    match GoogleApiCall.generate_content prompt st with
    | (Ok (Some text), st1, ev) => (Ok (Text.strip text), st1, ev)
    | (Ok None, st1, ev) =>
        (Ok (fallback_sentence minutes practice), st1,
         ev ++ [EvLog ERROR "AI generation failed: 'NoneType' object has no attribute 'strip'"])
    | (Raise e, st1, ev) =>
        (Ok (fallback_sentence minutes practice), st1,
         ev ++ [EvLog ERROR ("AI generation failed: " +:+ exn_str e)])
    end.
Proof.
  intros Hp Hm Eprompt. unfold Main._generate_introduction_text.
  rewrite Eprompt, (fallback_introduction_ok context practice minutes Hp Hm).
  run. cbn.
  destruct (GoogleApiCall.generate_content prompt st) as [[[[text|]|e] st1] ev]; cbn;
    rewrite ?app_nil_r; reflexivity.
Qed.

(** Whatever the context, what comes out is text or the [KeyError] of a
    missing field, raised before any call to the client. *)
Lemma introduction_only_key_errors (context : gmap string pyval) (st : World * GoogleApiCall.t) :
  match Main._generate_introduction_text context st with
  | (Ok _, _, _) => True
  | (Raise e, st1, ev) =>
      (e = KeyError "meditation_type" ∨ e = KeyError "duration_minutes")
      ∧ st1 = st ∧ ev = []
  end.
Proof.
  pose proof (introduction_prompt_keys context) as Hk.
  destruct (Main.introduction_prompt context) as [prompt|e] eqn:Ep.
  - destruct Hk as (practice & minutes & Hp & Hm).
    rewrite (generate_introduction_text_cases context practice minutes prompt st Hp Hm Ep).
    now destruct (GoogleApiCall.generate_content prompt st) as [[[[text|]|e] st1] ev].
  - unfold Main._generate_introduction_text. rewrite Ep. run. cbn. auto.
Qed.

(** C4: for every context the introduction orchestrator returns text or the
    [KeyError] of a missing field raised before any call to the client, never
    a failure of generation.  With both fields present it always returns
    text, and whenever [generate_content] raises, that text is the fallback
    sentence built from the duration and the practice type; for 20 minutes of
    "body_scan" the sentence holds "20" and "body_scan". *)
Theorem introduction_never_propagates
    (context : gmap string pyval) (w : World) (self : GoogleApiCall.t) :
  match Main._generate_introduction_text context (w, self) with
  | (Ok _, _, _) => True
  | (Raise e, st1, ev) =>
      (e = KeyError "meditation_type" ∨ e = KeyError "duration_minutes")
      ∧ st1 = (w, self) ∧ ev = []
  end
  ∧ ∀ practice minutes,
      context !! "meditation_type" = Some practice →
      context !! "duration_minutes" = Some minutes →
      ∃ prompt,
        Main.introduction_prompt context = Ok prompt
        ∧ (∃ text st ev,
             Main._generate_introduction_text context (w, self) = (Ok text, st, ev))
        ∧ (∀ e st ev,
             GoogleApiCall.generate_content prompt (w, self) = (Raise e, st, ev) →
             Main._generate_introduction_text context (w, self)
             = (Ok (fallback_sentence minutes practice), st,
                ev ++ [EvLog ERROR ("AI generation failed: " +:+ exn_str e)]))
        ∧ (minutes = VInt 20 → practice = VStr "body_scan" →
           fallback_sentence minutes practice
           = "Welcome to your 20-minute body_scan practice. Take a moment to settle in and let's begin this journey together."
           ∧ Text.occurs_in "20" (fallback_sentence minutes practice)
           ∧ Text.occurs_in "body_scan" (fallback_sentence minutes practice)).
Proof.
  split; [apply introduction_only_key_errors|].
  intros practice minutes Hp Hm.
  destruct (Main.introduction_prompt context) as [prompt|e] eqn:Ep.
  2:{ unfold Main.introduction_prompt, dict_index in Ep. rewrite Hp, Hm in Ep. discriminate. }
  exists prompt. split; [reflexivity|].
  pose proof (generate_introduction_text_cases context practice minutes prompt (w, self) Hp Hm Ep)
    as Hcases.
  split; [|split].
  - rewrite Hcases.
    destruct (GoogleApiCall.generate_content prompt (w, self)) as [[[[text|]|e] st1] ev]; eauto.
  - intros e st ev Hgen. now rewrite Hcases, Hgen.
  - intros -> ->. split; [reflexivity|]. split.
    + exists "Welcome to your ", "-minute body_scan practice. Take a moment to settle in and let's begin this journey together.". reflexivity.
    + exists "Welcome to your 20-minute ", " practice. Take a moment to settle in and let's begin this journey together.". reflexivity.
Qed.

Lemma introduction_never_propagates_witness :
  (Main._generate_introduction_text (Main._build_introduction_context Stub.body_scan_request)
     (Stub.world Stub.with_key Stub.failing_sdk, Stub.client)).1.1
  = Ok "Welcome to your 20-minute body_scan practice. Take a moment to settle in and let's begin this journey together.".
Proof.
  destruct (introduction_never_propagates
              (Main._build_introduction_context Stub.body_scan_request)
              (Stub.world Stub.with_key Stub.failing_sdk) Stub.client) as [_ H].
  destruct (H (VStr "body_scan") (VInt 20) eq_refl eq_refl) as (prompt & Ep & _ & Hf & _).
  vm_compute in Ep. injection Ep as <-.
  erewrite Hf; [reflexivity | vm_compute; reflexivity].
Defined.

(** ** The session-plan orchestrator *)

Lemma create_default_csv_fixtures (d : Z) :
  (d ≤ 10 → SessionPlanner._create_default_csv d = fixture_upto_10)
  ∧ (10 < d ≤ 20 → SessionPlanner._create_default_csv d = fixture_upto_20)
  ∧ (20 < d → SessionPlanner._create_default_csv d = fixture_over_20).
Proof.
  unfold SessionPlanner._create_default_csv.
  destruct (Z.leb_spec d 10), (Z.leb_spec d 20); repeat split; intros; (reflexivity || lia).
Qed.

(** When the call to the client raises, the plan is the default one. *)
Lemma create_session_plan_on_failure (meditation_type : string) (d : Z)
    (user_context : option (gmap string pyval))
    (w : World) (self : SessionPlanner.t) (ids : list pyval) :
  SessionPlanner.get_available_phrases self meditation_type = Ok ids →
  (∃ e, (GoogleApiCall.generate_content
           (session_plan_prompt meditation_type d user_context ids)
           (w, SessionPlanner.google_ai self)).1.1 = Raise e) →
  (SessionPlanner.create_session_plan meditation_type d user_context (w, self)).1.1
  = Ok (SessionPlanner._create_default_csv d).
Proof.
  intros Hids Hfail. unfold SessionPlanner.create_session_plan. run. cbn [fst snd].
  rewrite Hids. cbn zeta.
  destruct Hfail as [e He]. unfold SessionPlanner.on_google_ai.
  change (SessionPlanner._build_ai_prompt _ _ _ _ _ _ _)
    with (session_plan_prompt meditation_type d user_context ids).
  destruct (GoogleApiCall.generate_content _ (w, SessionPlanner.google_ai self))
    as [[r [w1 g]] ev].
  cbn in He. subst r. reflexivity.
Qed.

(** C5: when generation raises, [create_session_plan] returns a fixed
    fallback plan chosen by the duration alone: the 4-row plan up to 10
    minutes, the 6-row plan above 10 and up to 20, the 7-row plan above 20,
    character for character. *)
Theorem session_plan_fallback_by_duration (meditation_type : string) (d : Z)
    (user_context : option (gmap string pyval))
    (w : World) (self : SessionPlanner.t) (ids : list pyval) :
  SessionPlanner.get_available_phrases self meditation_type = Ok ids →
  (∃ e, (GoogleApiCall.generate_content
           (session_plan_prompt meditation_type d user_context ids)
           (w, SessionPlanner.google_ai self)).1.1 = Raise e) →
  (d ≤ 10 →
   (SessionPlanner.create_session_plan meditation_type d user_context (w, self)).1.1
   = Ok fixture_upto_10)
  ∧ (10 < d ≤ 20 →
     (SessionPlanner.create_session_plan meditation_type d user_context (w, self)).1.1
     = Ok fixture_upto_20)
  ∧ (20 < d →
     (SessionPlanner.create_session_plan meditation_type d user_context (w, self)).1.1
     = Ok fixture_over_20).
Proof.
  intros Hids Hfail.
  rewrite (create_session_plan_on_failure meditation_type d user_context w self ids Hids Hfail).
  destruct (create_default_csv_fixtures d) as (H10 & H20 & H21).
  repeat split; intros; f_equal; auto.
Qed.

(** A client holding a handle to a remote that is down: every call raises. *)
Lemma failing_sdk_always_raises (prompt : string) (w : World) (self : GoogleApiCall.t) (h : GenerativeModel) :
  GoogleApiCall.model self = Some h →
  (∀ sent_before p, ∃ e, sdk_generate (sdk w) h sent_before p = Raise e) →
  ∃ e, (GoogleApiCall.generate_content prompt (w, self)).1.1 = Raise e.
Proof.
  intros Hm Hdown.
  pose proof (retry_loop_outcome 3 5 (GoogleApiCall.generate_content_body prompt)
                (λ s, sdk s.1 = sdk w ∧ s.2 = self) (λ _, False) (λ _, True) ltac:(lia)) as H.
  unfold GoogleApiCall.generate_content, retry_on_error, wrapper.
  lapply H.
  - clear H. intros H.
    specialize (H (Z.to_nat 3) 0 (w, self) ltac:(lia) (conj eq_refl eq_refl)).
    destruct (retry_loop 3 5 _ (Z.to_nat 3) 0 (w, self)) as [[[[text|]|e] st] ev];
      [tauto | lia | eauto].
  - intros [w' self'] [Hsdk Hself]. cbn in Hsdk, Hself. subst self'.
    rewrite (body_with_handle w' self h prompt Hm), Hsdk.
    destruct (Hdown (sent w') prompt) as (e & ->). cbn. auto.
Qed.

Lemma session_plan_fallback_by_duration_witness :
  (SessionPlanner.create_session_plan "breath_focus" 8 None
     (Stub.world Stub.with_key Stub.failing_sdk, Stub.planner)).1.1
  = Ok fixture_upto_10.
Proof.
  refine (proj1 (session_plan_fallback_by_duration "breath_focus" 8 None
            (Stub.world Stub.with_key Stub.failing_sdk) Stub.planner
            [VInt 1; VInt 2; VInt 6] eq_refl _) _); [|lia].
  eapply failing_sdk_always_raises; [reflexivity|].
  intros sent_before p. eexists. reflexivity.
Defined.

Example session_plan_fallback_15 :
  (SessionPlanner.create_session_plan "breath_focus" 15 None
     (Stub.world Stub.with_key Stub.failing_sdk, Stub.planner)).1.1
  = Ok fixture_upto_20.
Proof. vm_compute. reflexivity. Qed.

Example session_plan_fallback_25 :
  (SessionPlanner.create_session_plan "breath_focus" 25 None
     (Stub.world Stub.with_key Stub.failing_sdk, Stub.planner)).1.1
  = Ok fixture_over_20.
Proof. vm_compute. reflexivity. Qed.

(** ** Construction of the client *)

Ltac run_client :=
  unfold GoogleApiCall.__init__, GoogleApiCall._initialize_genai, on_world,
    GoogleApiCall.load_dotenv, GoogleApiCall.getenv, GoogleApiCall.configure,
    GoogleApiCall.new_model; run; cbn.

(** C7: constructing a client when [GOOGLE_API_KEY] is in neither the
    environment nor the .env file raises at once: one error log, no attempt,
    no sleep, nothing sent to the SDK.  When construction succeeds the client
    holds its handle, built with the resolved config, and no prompt has been
    sent yet. *)
Theorem construction_requires_api_key (name : option string) (w : World) :
  (environ w !! "GOOGLE_API_KEY" = None →
   dotenv w !! "GOOGLE_API_KEY" = None →
   GoogleApiCall.__init__ name w
   = (Raise (ValueError "GOOGLE_API_KEY environment variable not set"),
      set_environ (environ w ∪ dotenv w) w,
      [EvLog ERROR
         "Error initializing Generative AI: GOOGLE_API_KEY environment variable not set"]))
  ∧ (∀ self w' ev,
       GoogleApiCall.__init__ name w = (Ok self, w', ev) →
       ∃ h, GoogleApiCall.model self = Some h
            ∧ gm_model_name h = GoogleApiCall.model_name self
            ∧ GoogleApiCall.resolve (model_configs w) (GoogleApiCall.model_name self)
              = Ok (gm_generation_config h)
            ∧ sent w' = sent w
            ∧ invocations ev = 0%nat ∧ sleeps ev = []).
Proof.
  split.
  - intros He Hd.
    assert (Hk : (environ w ∪ dotenv w) !! "GOOGLE_API_KEY" = None)
      by now apply lookup_union_None.
    run_client. rewrite Hk. reflexivity.
  - intros self w' ev. run_client.
    destruct ((environ w ∪ dotenv w) !! "GOOGLE_API_KEY") as [key|]; [|discriminate].
    destruct (Text.truthy key); [|discriminate]. cbn.
    destruct (sdk_configure (sdk w) key); [discriminate|]. cbn.
    match goal with |- context [GoogleApiCall.resolve ?c ?n] =>
      destruct (GoogleApiCall.resolve c n) as [cfg|e] eqn:Er end; [|discriminate].
    cbn. destruct (sdk_new_model (sdk w) _ cfg); [discriminate|]. cbn.
    intros [= <- <- <-]. eexists. cbn. repeat split. exact Er.
Qed.

Lemma construction_requires_api_key_witness :
  GoogleApiCall.__init__ None (Stub.world ∅ Stub.echo_sdk)
  = (Raise (ValueError "GOOGLE_API_KEY environment variable not set"),
     set_environ (∅ ∪ ∅) (Stub.world ∅ Stub.echo_sdk),
     [EvLog ERROR
        "Error initializing Generative AI: GOOGLE_API_KEY environment variable not set"]).
Proof.
  apply (proj1 (construction_requires_api_key None (Stub.world ∅ Stub.echo_sdk)));
    reflexivity.
Defined.

(** A key that is set but empty is refused as well. *)
Example construction_empty_key :
  (GoogleApiCall.__init__ None
     (Stub.world {[ "GOOGLE_API_KEY" := EmptyString ]} Stub.echo_sdk)).1.1
  = Raise (ValueError "GOOGLE_API_KEY environment variable not set").
Proof. vm_compute. reflexivity. Qed.

Example construction_with_key :
  (GoogleApiCall.__init__ None (Stub.world Stub.with_key Stub.echo_sdk)).1.1
  = Ok Stub.client.
Proof. vm_compute. reflexivity. Qed.

(** ** The model registry *)

Lemma add_model_config_run (name : string) (config : gmap string num) (w : World) :
  GoogleApiCall.add_model_config name config w
  = (Ok tt, set_model_configs (<[name := config]> (model_configs w)) w,
     [EvLog INFO ("Added configuration for model: " +:+ name)]).
Proof. reflexivity. Qed.

(** Registration never raises. *)
Lemma register_all_returns (calls : list (string * gmap string num)) (w : World) :
  (register_all calls w).1.1 = Ok tt.
Proof.
  revert w. induction calls as [|[name config] calls IH]; intros w; [reflexivity|].
  cbn [register_all]. unfold bind. rewrite add_model_config_run.
  specialize (IH (set_model_configs (<[name := config]> (model_configs w)) w)).
  destruct (register_all calls _) as [[r w1] ev]. cbn in IH |- *. now subst r.
Qed.

Lemma registry_after_cons (name : string) (config : gmap string num)
    (calls : list (string * gmap string num)) (w : World) :
  registry_after ((name, config) :: calls) w
  = registry_after calls (set_model_configs (<[name := config]> (model_configs w)) w).
Proof.
  unfold registry_after. cbn [register_all]. unfold bind. rewrite add_model_config_run.
  pose proof (register_all_returns calls
                (set_model_configs (<[name := config]> (model_configs w)) w)) as Hr.
  destruct (register_all calls _) as [[r w1] ev]. cbn in Hr. now subst r.
Qed.

Lemma registry_after_snoc (calls : list (string * gmap string num))
    (name : string) (config : gmap string num) (w : World) :
  registry_after (calls ++ [(name, config)]) w = <[name := config]> (registry_after calls w).
Proof.
  revert w. induction calls as [|[n c] calls IH]; intros w; [reflexivity|].
  cbn [app]. rewrite !registry_after_cons. apply IH.
Qed.

(** Registration only adds names. *)
Lemma registry_after_dom (calls : list (string * gmap string num)) (w : World) :
  dom (model_configs w) ⊆ dom (registry_after calls w).
Proof.
  revert w. induction calls as [|[name config] calls IH]; intros w; [reflexivity|].
  rewrite registry_after_cons. etrans; [|apply IH]. cbn. set_solver.
Qed.

(** With the default model registered, the lookup with fallback returns. *)
Lemma resolve_total (configs : gmap string (gmap string num)) (name : string)
    (fallback : gmap string num) :
  configs !! GoogleApiCall.DEFAULT_MODEL = Some fallback →
  GoogleApiCall.resolve configs name = Ok (default fallback (configs !! name)).
Proof.
  intros Hd. unfold GoogleApiCall.resolve. rewrite Hd. now destruct (configs !! name).
Qed.

(** From startup on, the default model stays registered. *)
Lemma registry_after_default (calls : list (string * gmap string num)) (w : World) :
  is_Some (registry_after calls (at_startup w) !! GoogleApiCall.DEFAULT_MODEL).
Proof.
  apply elem_of_dom. apply (registry_after_dom calls (at_startup w)).
  apply elem_of_dom. cbn. eexists. apply lookup_insert_eq.
Qed.

(** C8: the registry starts with exactly three entries, the default model
    [gemini-2.5-flash] among them; a run of [add_model_config] calls never
    raises and never removes a name (the names registered before are still
    registered after), so from startup on the default model is registered
    and the lookup with fallback is defined. *)
Theorem registry_keeps_default (calls : list (string * gmap string num)) (w : World) :
  size GoogleApiCall.MODEL_CONFIGS = 3%nat
  ∧ is_Some (GoogleApiCall.MODEL_CONFIGS !! GoogleApiCall.DEFAULT_MODEL)
  ∧ (register_all calls w).1.1 = Ok tt
  ∧ dom (model_configs w) ⊆ dom (registry_after calls w)
  ∧ is_Some (registry_after calls (at_startup w) !! GoogleApiCall.DEFAULT_MODEL)
  ∧ ∃ cfg, GoogleApiCall.resolve (registry_after calls (at_startup w))
             GoogleApiCall.DEFAULT_MODEL = Ok cfg.
Proof.
  pose proof (registry_after_default calls w) as Hd.
  split; [vm_compute; reflexivity|].
  split; [eexists; apply lookup_insert_eq|].
  split; [apply register_all_returns|].
  split; [apply registry_after_dom|].
  split; [exact Hd|].
  destruct Hd as [fallback Hf]. rewrite (resolve_total _ _ fallback Hf). eauto.
Qed.

(** C6: resolving a model config never fails.  After any run of
    registrations from startup, every name resolves; a name that is not
    registered resolves to the config registered for the default model
    [gemini-2.5-flash]; and right after [add_model_config name cfg] the name
    resolves to exactly [cfg]. *)
Theorem resolve_never_fails (calls : list (string * gmap string num)) (w : World)
    (name : string) :
  ∃ fallback,
    registry_after calls (at_startup w) !! GoogleApiCall.DEFAULT_MODEL = Some fallback
    ∧ (∃ cfg, GoogleApiCall.resolve (registry_after calls (at_startup w)) name = Ok cfg)
    ∧ (registry_after calls (at_startup w) !! name = None →
       GoogleApiCall.resolve (registry_after calls (at_startup w)) name = Ok fallback)
    ∧ (∀ cfg,
         GoogleApiCall.resolve (registry_after (calls ++ [(name, cfg)]) (at_startup w)) name
         = Ok cfg).
Proof.
  destruct (registry_after_default calls w) as [fallback Hf].
  exists fallback. split; [exact Hf|].
  rewrite (resolve_total _ name fallback Hf).
  split; [eauto|]. split; [now intros ->|].
  intros cfg. rewrite registry_after_snoc.
  destruct (decide (name = GoogleApiCall.DEFAULT_MODEL)) as [->|Hne].
  - rewrite (resolve_total _ _ cfg) by apply lookup_insert_eq. now rewrite lookup_insert_eq.
  - rewrite (resolve_total _ _ fallback) by now rewrite lookup_insert_ne.
    now rewrite lookup_insert_eq.
Qed.

Lemma resolve_never_fails_witness :
  ∃ fallback,
    registry_after [("tuned", {[ "temperature" := Float 1 10 ]})]
      (at_startup (Stub.world ∅ Stub.echo_sdk)) !! GoogleApiCall.DEFAULT_MODEL
    = Some fallback
    ∧ GoogleApiCall.resolve
        (registry_after [("tuned", {[ "temperature" := Float 1 10 ]})]
           (at_startup (Stub.world ∅ Stub.echo_sdk)))
        "no-such-model"
      = Ok fallback.
Proof.
  destruct (resolve_never_fails [("tuned", {[ "temperature" := Float 1 10 ]})]
              (Stub.world ∅ Stub.echo_sdk) "no-such-model")
    as (fallback & Hf & _ & Hnone & _).
  exists fallback. split; [exact Hf|]. apply Hnone. vm_compute. reflexivity.
Defined.

Example resolve_registered :
  GoogleApiCall.resolve
    (registry_after [("tuned", {[ "temperature" := Float 1 10 ]})]
       (at_startup (Stub.world ∅ Stub.echo_sdk)))
    "tuned"
  = Ok {[ "temperature" := Float 1 10 ]}.
Proof. vm_compute. reflexivity. Qed.

(** ** The prompt of the introduction orchestrator *)

Ltac find_occurrence :=
  repeat first
    [ match goal with
      | |- Text.occurs_in ?n (_ +:+ _ +:+ _ +:+ ?R) =>
          change (Text.occurs_in n (n +:+ R)); apply occurs_here
      end
    | apply occurs_later ].

(** The context of a request without check-in data holds the three base
    fields only. *)
Lemma context_without_checkin (request : Main.IntroductionRequest) :
  Main.checkin_data request = None →
  let context := Main._build_introduction_context request in
  context !! "meditation_type" = Some (VStr (Main.meditation_type request))
  ∧ context !! "duration_minutes" = Some (VInt (Main.duration_minutes request))
  ∧ context !! "agitation_level" = None
  ∧ context !! "energy_level" = None
  ∧ context !! "current_emotions" = None
  ∧ context !! "meditation_preference" = None.
Proof.
  intros Hc. unfold Main._build_introduction_context. rewrite Hc. cbn zeta.
  repeat split; by simplify_map_eq.
Qed.

(** While attempts remain, the journal of the loop opens with an
    invocation of the wrapped function. *)
Lemma retry_loop_first_attempt {S A} (n d : Z) (func : M S A)
    (fuel : nat) (retries : Z) (s : S) :
  retries < n →
  ∃ rest, (retry_loop n d func (Datatypes.S fuel) retries s).2
          = EvAttempt (func s).2 :: rest.
Proof.
  intros Hlt. rewrite retry_loop_step by assumption.
  destruct (func s) as [[[v|e] s1] ev]; [eauto|].
  destruct (retries + 1 =? n); [eauto|].
  destruct (d <? 0); [eauto|].
  destruct (retry_loop n d func fuel (retries + 1) s1) as [[r s2] ev2]. eauto.
Qed.

(** The first attempt of [generate_content] on a client that holds a handle
    sends the message it was given. *)
Lemma generate_content_sends (message : string) (w : World) (self : GoogleApiCall.t)
    (h : GenerativeModel) :
  GoogleApiCall.model self = Some h →
  ∃ inner rest,
    (GoogleApiCall.generate_content message (w, self)).2 = EvAttempt inner :: rest
    ∧ EvGenerate h message ∈ inner.
Proof.
  intros Hm. unfold GoogleApiCall.generate_content, retry_on_error, wrapper.
  change (Z.to_nat 3) with 3%nat.
  destruct (retry_loop_first_attempt 3 5 (GoogleApiCall.generate_content_body message)
              2 0 (w, self) ltac:(lia)) as [rest ->].
  eexists _, rest. split; [reflexivity|].
  rewrite (body_with_handle w self h message Hm). cbn zeta.
  destruct (sdk_generate (sdk w) h (sent w) message) as [raw|e];
    [destruct (Text.truthy (Text.strip raw))|]; cbn; set_solver.
Qed.

(** C9: for a request of 15 minutes without check-in data, the prompt the
    introduction orchestrator builds holds "unknown" as the agitation level
    and "normal" as the energy level (and the 15 minutes); and that prompt is
    what a client holding a handle sends to the remote model in its first
    attempt. *)
Theorem introduction_prompt_defaults (request : Main.IntroductionRequest)
    (w : World) (self : GoogleApiCall.t) :
  Main.duration_minutes request = 15 →
  Main.checkin_data request = None →
  ∃ prompt,
    Main.introduction_prompt (Main._build_introduction_context request) = Ok prompt
    ∧ Text.occurs_in "- Current agitation level: unknown/5" prompt
    ∧ Text.occurs_in ("- Energy level: normal" +:+ Text.nl) prompt
    ∧ Text.occurs_in " for 15 minutes" prompt
    ∧ (∀ h, GoogleApiCall.model self = Some h →
         ∃ inner rest,
           (Main._generate_introduction_text (Main._build_introduction_context request)
              (w, self)).2 = EvAttempt inner :: rest
           ∧ EvGenerate h prompt ∈ inner).
Proof.
  intros Hd Hc.
  destruct (context_without_checkin request Hc) as (Hp & Hm & Ha & He & Hemo & Hpref).
  rewrite Hd in Hm.
  eexists. split.
  { unfold Main.introduction_prompt, dict_index, dict_get.
    rewrite Hp, Hm, Ha, He, Hemo, Hpref. reflexivity. }
  split; [find_occurrence|]. split; [find_occurrence|]. split; [find_occurrence|].
  intros h Hh.
  erewrite generate_introduction_text_cases; [|exact Hp|exact Hm|].
  2:{ unfold Main.introduction_prompt, dict_index, dict_get.
      rewrite Hp, Hm, Ha, He, Hemo, Hpref. reflexivity. }
  match goal with |- context [GoogleApiCall.generate_content ?p ?st] =>
    destruct (generate_content_sends p w self h Hh) as (inner & rest & Ej & Hin);
    destruct (GoogleApiCall.generate_content p st) as [[[[text|]|e] st1] ev]
  end; cbn in Ej |- *; subst ev; eauto.
Qed.

Lemma introduction_prompt_defaults_witness :
  ∃ prompt,
    Main.introduction_prompt (Main._build_introduction_context Stub.breath_request) = Ok prompt
    ∧ Text.occurs_in "- Current agitation level: unknown/5" prompt
    ∧ Text.occurs_in ("- Energy level: normal" +:+ Text.nl) prompt.
Proof.
  destruct (introduction_prompt_defaults Stub.breath_request
              (Stub.world Stub.with_key Stub.echo_sdk) Stub.client eq_refl eq_refl)
    as (prompt & Ep & Ha & He & _).
  exists prompt. auto.
Defined.

(** With check-in data present the fields are those of the check-in, even
    when they are [None]. *)
Example introduction_prompt_with_checkin :
  ∃ prompt,
    Main.introduction_prompt
      (Main._build_introduction_context
         {| Main.meditation_type := "body_scan"; Main.duration_minutes := 15;
            Main.user_profile := None;
            Main.checkin_data :=
              Some {| Main.agitation := Some 4; Main.energy := None;
                      Main.emotions := Some ["stress"; "joy"];
                      Main.preference := Some "auto" |} |}) = Ok prompt
    ∧ Text.contains "- Current agitation level: 4/5" prompt = true
    ∧ Text.contains "- Energy level: None" prompt = true
    ∧ Text.contains "- Present emotions: ['stress', 'joy']" prompt = true.
Proof. eexists. split; [vm_compute; reflexivity|]. repeat split; vm_compute; reflexivity. Qed.

(** ** The phrase table *)

(** C10: [get_available_phrases] does not look at the meditation type: any
    two types give the same outcome, and on a loaded phrase table that is the
    first column of the table, in row order. *)
Theorem available_phrases_ignore_type (self : SessionPlanner.t)
    (df : SessionPlanner.DataFrame) (name : string) (ids : list pyval)
    (others : list (string * list pyval)) (t1 t2 : string) :
  SessionPlanner.phrases_df self = Some df →
  SessionPlanner.df_columns df = (name, ids) :: others →
  SessionPlanner.get_available_phrases self t1 = Ok ids
  ∧ SessionPlanner.get_available_phrases self t2 = Ok ids
  ∧ ∀ self' : SessionPlanner.t,
      SessionPlanner.get_available_phrases self' t1
      = SessionPlanner.get_available_phrases self' t2.
Proof.
  intros Hdf Hcols. unfold SessionPlanner.get_available_phrases.
  rewrite Hdf, Hcols. auto.
Qed.

Lemma available_phrases_ignore_type_witness :
  SessionPlanner.get_available_phrases Stub.planner "breath_focus" = Ok [VInt 1; VInt 2; VInt 6]
  ∧ SessionPlanner.get_available_phrases Stub.planner "body_scan" = Ok [VInt 1; VInt 2; VInt 6].
Proof.
  destruct (available_phrases_ignore_type Stub.planner Stub.table "id"
              [VInt 1; VInt 2; VInt 6]
              [("text", [VStr "Settle"; VStr "Breathe"; VStr "Notice"])]
              "breath_focus" "body_scan" eq_refl eq_refl) as (H1 & H2 & _).
  split; assumption.
Defined.

(** * Further properties *)

(** ** The retry policy, in general *)

Lemma sleeps_cons_attempt (inner ev : list event) : sleeps (EvAttempt inner :: ev) = sleeps ev.
Proof. reflexivity. Qed.

(** The whole run of the loop, for any operation: the state is threaded
    from one invocation to the next, every invocation but the last raised,
    a sleep of [d] seconds separates two invocations, and the outcome is that
    of the last invocation. *)
Lemma retry_loop_trace {S A} (n d : Z) (op : M S A) :
  0 ≤ d →
  ∀ (fuel : nat) (retries : Z) (s : S),
    n - retries ≤ Z.of_nat fuel →
    let '(res, s', ev) := retry_loop n d op fuel retries s in
    s' = state_after op (invocations ev) s
    ∧ sleeps ev = replicate (invocations ev - 1) d
    ∧ (∀ i, (i < invocations ev - 1)%nat → ∃ e, (op (state_after op i s)).1.1 = Raise e)
    ∧ match res with
      | Ok (Some v) =>
          (1 ≤ invocations ev)%nat ∧ Z.of_nat (invocations ev) ≤ n - retries
          ∧ (op (state_after op (invocations ev - 1) s)).1.1 = Ok v
      | Ok None => n ≤ retries ∧ invocations ev = 0%nat
      | Raise e =>
          retries < n ∧ Z.of_nat (invocations ev) = n - retries
          ∧ (op (state_after op (invocations ev - 1) s)).1.1 = Raise e
      end.
Proof.
  intros Hd fuel. induction fuel as [|fuel IH]; intros retries s Hfuel.
  - rewrite retry_loop_exit by lia. cbn. repeat split; try (intros; lia); auto.
  - destruct (Z_lt_le_dec retries n) as [Hlt|Hge].
    2:{ rewrite retry_loop_exit by lia. cbn. repeat split; try (intros; lia); auto. }
    rewrite retry_loop_step by assumption.
    destruct (op s) as [[[v|e] s1] ev0] eqn:Eop.
    + cbn. unfold state_after. cbn. rewrite Eop. cbn.
      repeat split; try (intros; lia); auto.
    + destruct (Z.eqb_spec (retries + 1) n) as [Heq|Hne].
      * cbn. unfold state_after. cbn. rewrite Eop. cbn.
        repeat split; try (intros; lia); auto.
      * apply Z.ltb_ge in Hd as ->.
        specialize (IH (retries + 1) s1 ltac:(lia)).
        destruct (retry_loop n d op fuel (retries + 1) s1) as [[res s2] ev2].
        destruct IH as (Hst & Hsl & Hpre & Hres).
        rewrite invocations_cons_attempt, sleeps_cons_attempt.
        assert (Hpos : (1 ≤ invocations ev2)%nat).
        { destruct res as [[v|]|e']; [tauto | lia | lia]. }
        change (invocations (_ :: EvSleep d :: ev2)) with (invocations ev2).
        change (sleeps (_ :: EvSleep d :: ev2)) with (d :: sleeps ev2).
        assert (Hs1 : ∀ k, state_after op (Datatypes.S k) s = state_after op k s1).
        { intros k. now rewrite state_after_S, Eop. }
        replace (Datatypes.S (invocations ev2) - 1)%nat
          with (Datatypes.S (invocations ev2 - 1)) by lia.
        rewrite !Hs1. split; [exact Hst|]. split.
        { rewrite Hsl. destruct (invocations ev2); [lia|]. cbn.
          now rewrite Nat.sub_0_r. }
        split.
        { intros [|i] Hi.
          - exists e. unfold state_after. cbn. now rewrite Eop.
          - rewrite Hs1. apply Hpre. lia. }
        destruct res as [[v|]|e']; intuition lia.
Qed.



(** The loop run from zero with the fuel of [wrapper], for an operation that
    first returns on its [k]-th invocation. *)
Lemma retry_loop_first_success {S A} (n d : Z) (op : M S A) (s : S) (k : nat) (v : A) :
  0 ≤ d →
  (1 ≤ k)%nat → Z.of_nat k ≤ n →
  (∀ i, (i < k - 1)%nat → ∃ e, (op (state_after op i s)).1.1 = Raise e) →
  (op (state_after op (k - 1) s)).1.1 = Ok v →
  ∃ ev,
    retry_loop n d op (Z.to_nat n) 0 s = (Ok (Some v), state_after op k s, ev)
    ∧ invocations ev = k
    ∧ sleeps ev = replicate (k - 1) d.
Proof.
  intros Hd Hk Hkn Hfail Hok.
  pose proof (retry_loop_trace n d op Hd (Z.to_nat n) 0 s ltac:(lia)) as H.
  destruct (retry_loop n d op (Z.to_nat n) 0 s) as [[res s'] ev].
  destruct H as (Hst & Hsl & Hpre & Hres).
  assert (Hm : invocations ev = k ∧ res = Ok (Some v)).
  { destruct res as [[v'|]|e].
    - destruct Hres as (Hpos & _ & Hres).
      destruct (lt_eq_lt_dec (invocations ev - 1) (k - 1)) as [[Hlt|Heq]|Hgt].
      + destruct (Hfail _ Hlt) as [e He]. congruence.
      + rewrite Heq in Hres. split; [lia | congruence].
      + destruct (Hpre _ Hgt) as [e He]. congruence.
    - lia.
    - destruct Hres as (_ & Hn & Hres).
      destruct (lt_eq_lt_dec (invocations ev - 1) (k - 1)) as [[Hlt|Heq]|Hgt].
      + lia.
      + rewrite Heq in Hres. congruence.
      + destruct (Hpre _ Hgt) as [e' He]. congruence. }
  destruct Hm as [<- ->]. subst s'. exists ev. auto.
Qed.




(** With a bound of zero or less the wrapper does nothing at all: the
    operation is not invoked, the state is kept, nothing is logged and
    [None] comes back. *)
Lemma retry_nonpositive_bound {S A} (n d : Z) (op : M S A) (s : S) :
  n ≤ 0 → retry_on_error n d op s = (Ok None, s, []).
Proof. intros Hn. unfold retry_on_error, wrapper. now apply retry_loop_exit. Qed.

Lemma retry_nonpositive_bound_witness :
  retry_on_error (-2) 5 flaky 0%nat = (Ok None, 0%nat, []).
Proof. apply (retry_nonpositive_bound (-2) 5 flaky 0%nat). lia. Defined.



(** ** The generation client, attempt by attempt *)

Lemma state_after_keeps {S A} (op : M S A) (I : S → Prop) :
  (∀ s, I s → I (op s).1.2) → ∀ k s, I s → I (state_after op k s).
Proof.
  intros Hop k. induction k as [|k IH]; intros s Hs; [exact Hs|].
  change (state_after op (Datatypes.S k) s) with ((op (state_after op k s)).1.2). auto.
Qed.

(** With a handle, an attempt records the message as sent and changes
    nothing else. *)
Lemma body_state_with_handle (w : World) (self : GoogleApiCall.t) (h : GenerativeModel)
    (message : string) :
  GoogleApiCall.model self = Some h →
  (GoogleApiCall.generate_content_body message (w, self)).1.2
  = (set_sent (message :: sent w) w, self).
Proof.
  intros Hm. rewrite (body_with_handle w self h message Hm). cbn zeta.
  destruct (sdk_generate (sdk w) h (sent w) message) as [raw|e];
    [destruct (Text.truthy (Text.strip raw))|]; reflexivity.
Qed.

Lemma state_after_body (w : World) (self : GoogleApiCall.t) (h : GenerativeModel)
    (message : string) (k : nat) :
  GoogleApiCall.model self = Some h →
  state_after (GoogleApiCall.generate_content_body message) k (w, self)
  = (set_sent (replicate k message ++ sent w) w, self).
Proof.
  intros Hm. induction k as [|k IH]; [now destruct w|].
  change (state_after ?op (Datatypes.S k) ?s) with ((op (state_after op k s)).1.2).
  rewrite IH. now rewrite (body_state_with_handle _ self h message Hm).
Qed.

(** X4: on a client that holds a handle, [generate_content] makes between
    one and three attempts, each sending the same message to the remote
    model, with a sleep of five seconds between two attempts; it leaves the
    client, the environment and the registry as they were: only the record of
    prompts sent grows, by one per attempt. *)
Theorem generate_content_sends_once_per_attempt (w : World) (self : GoogleApiCall.t)
    (h : GenerativeModel) (message : string) :
  GoogleApiCall.model self = Some h →
  let '(_, st, ev) := GoogleApiCall.generate_content message (w, self) in
  st = (set_sent (replicate (invocations ev) message ++ sent w) w, self)
  ∧ (1 ≤ invocations ev ≤ 3)%nat
  ∧ sleeps ev = replicate (invocations ev - 1) 5.
Proof.
  intros Hm. unfold GoogleApiCall.generate_content, retry_on_error, wrapper.
  pose proof (retry_loop_trace 3 5 (GoogleApiCall.generate_content_body message)
                ltac:(lia) (Z.to_nat 3) 0 (w, self) ltac:(lia)) as H.
  destruct (retry_loop 3 5 _ (Z.to_nat 3) 0 (w, self)) as [[res st] ev].
  destruct H as (Hst & Hsl & _ & Hres).
  rewrite (state_after_body w self h message _ Hm) in Hst.
  split; [exact Hst|]. split; [|exact Hsl].
  destruct res as [[v|]|e]; lia.
Qed.

Lemma generate_content_sends_once_per_attempt_witness :
  let '(_, st, ev) :=
    GoogleApiCall.generate_content "hello" (Stub.world Stub.with_key Stub.blank_sdk, Stub.client) in
  st = (set_sent (replicate (invocations ev) "hello"
                  ++ sent (Stub.world Stub.with_key Stub.blank_sdk))
          (Stub.world Stub.with_key Stub.blank_sdk), Stub.client)
  ∧ (1 ≤ invocations ev ≤ 3)%nat
  ∧ sleeps ev = replicate (invocations ev - 1) 5.
Proof.
  exact (generate_content_sends_once_per_attempt
           (Stub.world Stub.with_key Stub.blank_sdk) Stub.client _ "hello" eq_refl).
Defined.

(** X5: when the remote fails or answers blank on the first [k-1] attempts
    and answers text that is not blank on the [k]-th ([k] at most three),
    [generate_content] returns that text trimmed, after exactly [k] attempts
    and [k-1] sleeps of five seconds. *)
Theorem generate_content_recovers (w : World) (self : GoogleApiCall.t)
    (h : GenerativeModel) (message raw : string) (k : nat) :
  GoogleApiCall.model self = Some h →
  (1 ≤ k ≤ 3)%nat →
  (∀ i, (i < k - 1)%nat →
        match sdk_generate (sdk w) h (replicate i message ++ sent w) message with
        | Ok answer => Text.all_space answer = true
        | Raise _ => True
        end) →
  sdk_generate (sdk w) h (replicate (k - 1) message ++ sent w) message = Ok raw →
  Text.all_space raw = false →
  ∃ ev,
    GoogleApiCall.generate_content message (w, self)
    = (Ok (Some (Text.strip raw)),
       (set_sent (replicate k message ++ sent w) w, self), ev)
    ∧ invocations ev = k
    ∧ sleeps ev = replicate (k - 1) 5.
Proof.
  intros Hm Hk Hbad Hgood Hraw.
  assert (Htruthy : Text.truthy (Text.strip raw) = true).
  { destruct (Text.truthy (Text.strip raw)) eqn:E; [reflexivity|].
    apply truthy_false, strip_empty_iff in E. congruence. }
  unfold GoogleApiCall.generate_content, retry_on_error, wrapper.
  destruct (retry_loop_first_success 3 5 (GoogleApiCall.generate_content_body message)
              (w, self) k (Text.strip raw)) as (ev & Erun & Hinv & Hsl); try lia.
  - intros i Hi. rewrite (state_after_body w self h message i Hm).
    rewrite (body_with_handle _ self h message Hm). cbn [sent set_sent sdk].
    specialize (Hbad i Hi).
    destruct (sdk_generate (sdk w) h (replicate i message ++ sent w) message) as [answer|e];
      cbn zeta.
    + rewrite (strip_all_space answer Hbad). cbn. eauto.
    + cbn. eauto.
  - rewrite (state_after_body w self h message _ Hm).
    rewrite (body_with_handle _ self h message Hm). cbn [sent set_sent sdk].
    rewrite Hgood. cbn zeta. now rewrite Htruthy.
  - exists ev. rewrite (state_after_body w self h message k Hm) in Erun. auto.
Qed.

Lemma generate_content_recovers_witness :
  ∃ ev,
    GoogleApiCall.generate_content "hello" (Stub.world Stub.with_key recovering_sdk, Stub.client)
    = (Ok (Some "Breathe in."),
       (set_sent ["hello"; "hello"] (Stub.world Stub.with_key recovering_sdk), Stub.client), ev)
    ∧ invocations ev = 2%nat
    ∧ sleeps ev = [5].
Proof.
  refine (generate_content_recovers (Stub.world Stub.with_key recovering_sdk) Stub.client _
            "hello" "  Breathe in. " 2 eq_refl _ _ eq_refl eq_refl); [lia|].
  intros [|i] Hi; [reflexivity | cbn in Hi; lia].
Defined.
(** ** A client without a handle *)

(** X6: on a client that holds no handle, an attempt of [generate_content]
    first initialises it.  When initialisation returns, the attempt goes on
    exactly as an attempt on the initialised client, after the events of the
    initialisation; when it raises, the attempt raises the same exception and
    nothing is sent to the remote model. *)
Theorem generate_content_initialises_first (w : World) (self : GoogleApiCall.t)
    (message : string) :
  GoogleApiCall.model self = None →
  match GoogleApiCall._initialize_genai (w, self) with
  | (Ok _, st1, ev1) =>
      GoogleApiCall.generate_content_body message (w, self)
      = let '(r, st2, ev2) := GoogleApiCall.generate_content_body message st1 in
        (r, st2, ev1 ++ ev2)
  | (Raise e, st1, ev1) =>
      GoogleApiCall.generate_content_body message (w, self)
      = (Raise e, st1, ev1 ++ [EvLog ERROR ("Error generating content: " +:+ exn_str e)])
      ∧ sent st1.1 = sent w
  end.
Proof.
  intros Hm.
  assert (Hinit : match GoogleApiCall._initialize_genai (w, self) with
                  | (Ok _, st1, _) =>
                      is_Some (GoogleApiCall.model st1.2)
                      ∧ GoogleApiCall.model_name st1.2 = GoogleApiCall.model_name self
                  | (Raise _, st1, _) => sent st1.1 = sent w
                  end).
  { run_client.
    destruct ((environ w ∪ dotenv w) !! "GOOGLE_API_KEY") as [key|]; [|reflexivity].
    destruct (Text.truthy key); [|reflexivity]. cbn.
    destruct (sdk_configure (sdk w) key); [reflexivity|]. cbn.
    destruct (GoogleApiCall.resolve _ _) as [cfg|e]; [|reflexivity]. cbn.
    destruct (sdk_new_model (sdk w) _ cfg); [reflexivity|]. cbn. eauto. }
  destruct (GoogleApiCall._initialize_genai (w, self)) as [[[[]|e] [w1 self1]] ev1] eqn:Einit.
  - cbn [fst snd] in Hinit. destruct Hinit as [[h Hh] Hname].
    rewrite (body_with_handle w1 self1 h message Hh), Hname.
    unfold GoogleApiCall.generate_content_body, GoogleApiCall.model_generate_content.
    run. cbn [fst snd]. rewrite Hm, Einit, Hh.
    destruct (sdk_generate (sdk w1) h (sent w1) message) as [raw|e];
      [destruct (Text.truthy (Text.strip raw))|]; cbn;
      rewrite ?app_nil_r, <- ?app_assoc; reflexivity.
  - split; [|exact Hinit].
    unfold GoogleApiCall.generate_content_body. run. cbn [fst snd].
    rewrite Hm, Einit. reflexivity.
Qed.

Lemma generate_content_initialises_first_witness :
  GoogleApiCall.generate_content_body "hello" (Stub.world Stub.with_key Stub.echo_sdk, bare_client)
  = let '(r, st2, ev2) :=
      GoogleApiCall.generate_content_body "hello"
        (set_environ (Stub.with_key ∪ ∅) (Stub.world Stub.with_key Stub.echo_sdk), Stub.client) in
    (r, st2,
     [EvConfigure "secret";
      EvNewModel GoogleApiCall.DEFAULT_MODEL
        {[ "temperature" := Float 5 10; "top_p" := Float 95 100;
           "top_k" := Int 40; "max_output_tokens" := Int 8000 ]};
      EvLog INFO "Initialized model: gemini-2.5-flash"] ++ ev2).
Proof.
  pose proof (generate_content_initialises_first
                (Stub.world Stub.with_key Stub.echo_sdk) bare_client "hello" eq_refl) as H.
  assert (E : GoogleApiCall._initialize_genai (Stub.world Stub.with_key Stub.echo_sdk, bare_client)
              = (Ok tt,
                 (set_environ (Stub.with_key ∪ ∅) (Stub.world Stub.with_key Stub.echo_sdk),
                  Stub.client),
                 [EvConfigure "secret";
                  EvNewModel GoogleApiCall.DEFAULT_MODEL
                    {[ "temperature" := Float 5 10; "top_p" := Float 95 100;
                       "top_k" := Int 40; "max_output_tokens" := Int 8000 ]};
                  EvLog INFO "Initialized model: gemini-2.5-flash"]))
    by (vm_compute; reflexivity).
  rewrite E in H. exact H.
Defined.

(** An attempt on a client without a handle, when the API key is missing. *)
Lemma body_without_key (w : World) (self : GoogleApiCall.t) (message : string) :
  GoogleApiCall.model self = None →
  environ w !! "GOOGLE_API_KEY" = None →
  dotenv w !! "GOOGLE_API_KEY" = None →
  GoogleApiCall.generate_content_body message (w, self)
  = (Raise (ValueError "GOOGLE_API_KEY environment variable not set"),
     (set_environ (environ w ∪ dotenv w) w, self),
     [EvLog ERROR
        "Error initializing Generative AI: GOOGLE_API_KEY environment variable not set";
      EvLog ERROR "Error generating content: GOOGLE_API_KEY environment variable not set"]).
Proof.
  intros Hm He Hd.
  assert (Hk : (environ w ∪ dotenv w) !! "GOOGLE_API_KEY" = None)
    by now apply lookup_union_None.
  unfold GoogleApiCall.generate_content_body. run. cbn [fst snd]. rewrite Hm.
  run_client. rewrite Hk. reflexivity.
Qed.

(** X7: on a client without a handle, when the API key is in neither the
    environment nor the .env file, [generate_content] retries the
    initialisation like any other failure: three attempts, two sleeps of five
    seconds, then the [ValueError] of the missing key; no prompt is sent and
    the client still has no handle. *)
Theorem generate_content_retries_initialisation (w : World) (self : GoogleApiCall.t)
    (message : string) :
  GoogleApiCall.model self = None →
  environ w !! "GOOGLE_API_KEY" = None →
  dotenv w !! "GOOGLE_API_KEY" = None →
  ∃ w' ev,
    GoogleApiCall.generate_content message (w, self)
    = (Raise (ValueError "GOOGLE_API_KEY environment variable not set"), (w', self), ev)
    ∧ sent w' = sent w
    ∧ invocations ev = 3%nat
    ∧ sleeps ev = [5; 5].
Proof.
  intros Hm He Hd.
  set (I := λ s : World * GoogleApiCall.t,
         environ s.1 !! "GOOGLE_API_KEY" = None ∧ dotenv s.1 !! "GOOGLE_API_KEY" = None
         ∧ sent s.1 = sent w ∧ s.2 = self).
  assert (Hstep : ∀ s, I s →
            GoogleApiCall.generate_content_body message s
            = (Raise (ValueError "GOOGLE_API_KEY environment variable not set"),
               (set_environ (environ s.1 ∪ dotenv s.1) s.1, s.2),
               [EvLog ERROR
                  "Error initializing Generative AI: GOOGLE_API_KEY environment variable not set";
                EvLog ERROR
                  "Error generating content: GOOGLE_API_KEY environment variable not set"])
            ∧ I (set_environ (environ s.1 ∪ dotenv s.1) s.1, s.2)).
  { intros [w0 self0] (H1 & H2 & H3 & H4). cbn in H1, H2, H3, H4. subst self0.
    split; [now apply body_without_key|].
    repeat split; cbn; auto. now apply lookup_union_None. }
  assert (HI : I (w, self)) by (repeat split; auto).
  unfold GoogleApiCall.generate_content.
  pose proof (retry_loop_trace 3 5 (GoogleApiCall.generate_content_body message)
                ltac:(lia) (Z.to_nat 3) 0 (w, self) ltac:(lia)) as Hshape.
  pose proof (retry_loop_outcome 3 5 (GoogleApiCall.generate_content_body message)
                I (λ _, False)
                (λ e, e = ValueError "GOOGLE_API_KEY environment variable not set")
                ltac:(lia)) as Hout.
  lapply Hout; [clear Hout; intros Hout|].
  2:{ intros s Hs. destruct (Hstep s Hs) as [-> Hs']. auto. }
  specialize (Hout (Z.to_nat 3) 0 (w, self) ltac:(lia) HI).
  unfold retry_on_error, wrapper in *.
  destruct (retry_loop 3 5 _ (Z.to_nat 3) 0 (w, self)) as [[res [w' self']] ev].
  destruct Hshape as (Hst & _ & _ & _).
  assert (HI' : I (w', self')).
  { rewrite Hst. apply state_after_keeps; [|exact HI].
    intros s Hs. destruct (Hstep s Hs) as [-> Hs']. exact Hs'. }
  destruct HI' as (_ & _ & Hsent & Hself). cbn in Hsent, Hself. subst self'.
  destruct res as [[v|]|e]; [tauto | lia |].
  destruct Hout as (-> & _ & Hinv & Hsl). eauto 10.
Qed.

Lemma generate_content_retries_initialisation_witness :
  ∃ w' ev,
    GoogleApiCall.generate_content "hello" (Stub.world ∅ Stub.echo_sdk, bare_client)
    = (Raise (ValueError "GOOGLE_API_KEY environment variable not set"), (w', bare_client), ev)
    ∧ sent w' = sent (Stub.world ∅ Stub.echo_sdk)
    ∧ invocations ev = 3%nat
    ∧ sleeps ev = [5; 5].
Proof.
  apply (generate_content_retries_initialisation (Stub.world ∅ Stub.echo_sdk) bare_client "hello");
    reflexivity.
Defined.

(** ** Construction, in general *)

Ltac absent_from_journal :=
  repeat match goal with
         | H : _ ∈ _ :: _ |- _ => apply elem_of_cons in H as [H|H]; [discriminate|]
         | H : _ ∈ [] |- _ => now apply elem_of_nil in H
         end.

(** X8: whatever its outcome, constructing a client changes the process
    state in one way only: the variables of the .env file enter the
    environment, those already set keeping their value; the registry and the
    record of prompts sent are untouched, and no attempt or sleep happens.
    The key handed to the SDK, if any, is the environment's when set there
    and the .env file's otherwise. *)
Theorem construction_only_loads_dotenv (name : option string) (w : World) :
  let '(_, w', ev) := GoogleApiCall.__init__ name w in
  w' = set_environ (environ w ∪ dotenv w) w
  ∧ (∀ k v, environ w !! k = Some v → environ w' !! k = Some v)
  ∧ (∀ k v, environ w !! k = None → dotenv w !! k = Some v → environ w' !! k = Some v)
  ∧ invocations ev = 0%nat ∧ sleeps ev = []
  ∧ (∀ key, EvConfigure key ∈ ev →
       Text.truthy key = true
       ∧ match environ w !! "GOOGLE_API_KEY" with
         | Some v => key = v
         | None => dotenv w !! "GOOGLE_API_KEY" = Some key
         end).
Proof.
  assert (Hlook : ∀ key, (environ w ∪ dotenv w) !! "GOOGLE_API_KEY" = Some key →
            match environ w !! "GOOGLE_API_KEY" with
            | Some v => key = v
            | None => dotenv w !! "GOOGLE_API_KEY" = Some key
            end).
  { intros key Hk. apply lookup_union_Some_raw in Hk as [Hk|[Hn Hk]].
    - now rewrite Hk.
    - now rewrite Hn. }
  assert (Henv : (∀ k v, environ w !! k = Some v → (environ w ∪ dotenv w) !! k = Some v)
                 ∧ (∀ k v, environ w !! k = None → dotenv w !! k = Some v →
                           (environ w ∪ dotenv w) !! k = Some v)).
  { split; intros k v; [intros H | intros H1 H2];
      apply lookup_union_Some_raw; auto. }
  destruct Henv as [Henv1 Henv2].
  run_client.
  destruct ((environ w ∪ dotenv w) !! "GOOGLE_API_KEY") as [key|] eqn:Ek; cbn.
  2:{ repeat split; auto; exfalso; absent_from_journal. }
  specialize (Hlook key eq_refl).
  destruct (Text.truthy key) eqn:Et; cbn.
  2:{ repeat split; auto; exfalso; absent_from_journal. }
  assert (Hcfg : ∀ (l : list event) key',
            EvConfigure key' ∈ EvConfigure key :: l → (∀ k, EvConfigure k ∉ l) →
            Text.truthy key' = true
            ∧ match environ w !! "GOOGLE_API_KEY" with
              | Some v => key' = v
              | None => dotenv w !! "GOOGLE_API_KEY" = Some key'
              end).
  { intros l key' Hin Hno. apply elem_of_cons in Hin as [[= ->]|Hin]; [auto|].
    now apply Hno in Hin. }
  destruct (sdk_configure (sdk w) key); cbn;
    [|destruct (GoogleApiCall.resolve _ _) as [cfg|e]; cbn;
      [destruct (sdk_new_model (sdk w) _ cfg); cbn|]];
    (repeat split; auto;
     match goal with
     | H : EvConfigure ?k ∈ _ |- _ =>
         edestruct (Hcfg _ k H) as [? ?]; [intros k' Hk'; absent_from_journal | assumption]
     end).
Qed.



(** X10: an exception of the SDK during construction is raised as it is,
    after one error log and without any retry: when [genai.configure] raises,
    no model is created; when the creation of the model raises, that
    exception comes out. *)
Theorem construction_sdk_failure (name : option string) (w : World) (key : string) :
  (environ w ∪ dotenv w) !! "GOOGLE_API_KEY" = Some key →
  Text.truthy key = true →
  (∀ e, sdk_configure (sdk w) key = Some e →
        (GoogleApiCall.__init__ name w).1.1 = Raise e
        ∧ (GoogleApiCall.__init__ name w).2
          = [EvConfigure key;
             EvLog ERROR ("Error initializing Generative AI: " +:+ exn_str e)])
  ∧ (∀ e cfg,
       sdk_configure (sdk w) key = None →
       GoogleApiCall.resolve (model_configs w) (chosen_model name) = Ok cfg →
       sdk_new_model (sdk w) (chosen_model name) cfg = Some e →
       (GoogleApiCall.__init__ name w).1.1 = Raise e
       ∧ (GoogleApiCall.__init__ name w).2
         = [EvConfigure key; EvNewModel (chosen_model name) cfg;
            EvLog ERROR ("Error initializing Generative AI: " +:+ exn_str e)]).
Proof.
  intros Hk Ht. split.
  - intros e Hc. run_client. rewrite Hk, Ht. cbn. rewrite Hc. cbn. auto.
  - intros e cfg Hc Hr Hm. run_client. fold (chosen_model name).
    rewrite Hk, Ht. cbn. rewrite Hc. cbn. rewrite Hr. cbn. rewrite Hm. cbn. auto.
Qed.

Lemma construction_sdk_failure_witness :
  (GoogleApiCall.__init__ None (Stub.world Stub.with_key rejecting_sdk)).1.1
  = Raise (ApiError "invalid API key")
  ∧ (GoogleApiCall.__init__ None (Stub.world Stub.with_key rejecting_sdk)).2
    = [EvConfigure "secret";
       EvLog ERROR ("Error initializing Generative AI: " +:+ exn_str (ApiError "invalid API key"))].
Proof.
  apply (proj1 (construction_sdk_failure None (Stub.world Stub.with_key rejecting_sdk)
                  "secret" eq_refl eq_refl)). reflexivity.
Defined.

(** ** The registry, in general *)

(** X11: after a run of [add_model_config] calls, the config registered for
    a name is the one given in the last call for that name, or the one it had
    before when no call names it; the calls log one line each and touch
    nothing but the registry. *)
Theorem registry_last_call_wins (calls : list (string * gmap string num)) (w : World)
    (name : string) :
  registry_after calls w !! name
  = match last_registered name calls with
    | Some cfg => Some cfg
    | None => model_configs w !! name
    end
  ∧ (register_all calls w).1.2 = set_model_configs (registry_after calls w) w
  ∧ length (register_all calls w).2 = length calls.
Proof.
  revert w. induction calls as [|[n cfg] calls IH]; intros w.
  - cbn. now destruct w.
  - rewrite registry_after_cons.
    destruct (IH (set_model_configs (<[n := cfg]> (model_configs w)) w)) as (Hl & Hs & Hj).
    split; [|split].
    + rewrite Hl. cbn [last_registered].
      destruct (last_registered name calls); [reflexivity|]. cbn.
      destruct (decide (n = name)) as [->|Hne];
        [apply lookup_insert_eq | now apply lookup_insert_ne].
    + cbn [register_all]. unfold bind. rewrite add_model_config_run.
      destruct (register_all calls _) as [[r w1] ev]. cbn in Hs |- *. now rewrite Hs.
    + cbn [register_all]. unfold bind. rewrite add_model_config_run.
      destruct (register_all calls _) as [[r w1] ev]. cbn in Hj |- *.
      destruct r; cbn; now rewrite Hj.
Qed.

(** X12: registering a config under a name other than the default model's
    changes what that name resolves to and nothing else: every other name
    resolves as before. *)
Theorem registration_leaves_other_names (w : World) (name other : string)
    (cfg : gmap string num) :
  name ≠ GoogleApiCall.DEFAULT_MODEL →
  other ≠ name →
  GoogleApiCall.resolve (registry_after [(name, cfg)] w) other
  = GoogleApiCall.resolve (model_configs w) other.
Proof.
  intros Hd Ho. rewrite registry_after_cons. cbn.
  unfold GoogleApiCall.resolve. rewrite !lookup_insert_ne by congruence. reflexivity.
Qed.

Lemma registration_leaves_other_names_witness :
  GoogleApiCall.resolve
    (registry_after [("tuned", {[ "temperature" := Float 1 10 ]})]
       (at_startup (Stub.world ∅ Stub.echo_sdk))) "gemini-2.5-pro"
  = GoogleApiCall.resolve (model_configs (at_startup (Stub.world ∅ Stub.echo_sdk)))
      "gemini-2.5-pro".
Proof.
  apply (registration_leaves_other_names (at_startup (Stub.world ∅ Stub.echo_sdk))
           "tuned" "gemini-2.5-pro"); discriminate.
Defined.

(** X13: registering a config under the default model's name replaces the
    fallback: from then on every name that is not registered resolves to the
    new config, while the other registered names keep theirs. *)
Theorem registration_of_default_replaces_fallback (w : World) (name : string)
    (cfg : gmap string num) :
  let configs := registry_after [(GoogleApiCall.DEFAULT_MODEL, cfg)] w in
  (model_configs w !! name = None → GoogleApiCall.resolve configs name = Ok cfg)
  ∧ (∀ own, name ≠ GoogleApiCall.DEFAULT_MODEL → model_configs w !! name = Some own →
            GoogleApiCall.resolve configs name = Ok own).
Proof.
  cbn zeta. rewrite registry_after_cons. cbn. unfold GoogleApiCall.resolve.
  rewrite lookup_insert_eq. split.
  - intros Hn. destruct (decide (name = GoogleApiCall.DEFAULT_MODEL)) as [->|Hne].
    + now rewrite lookup_insert_eq.
    + rewrite lookup_insert_ne by congruence. now rewrite Hn.
  - intros own Hne Ho. rewrite lookup_insert_ne by congruence. now rewrite Ho.
Qed.

Lemma registration_of_default_replaces_fallback_witness :
  GoogleApiCall.resolve
    (registry_after [(GoogleApiCall.DEFAULT_MODEL, {[ "temperature" := Float 1 10 ]})]
       (at_startup (Stub.world ∅ Stub.echo_sdk))) "no-such-model"
  = Ok {[ "temperature" := Float 1 10 ]}.
Proof.
  apply (proj1 (registration_of_default_replaces_fallback
                  (at_startup (Stub.world ∅ Stub.echo_sdk)) "no-such-model"
                  {[ "temperature" := Float 1 10 ]})).
  vm_compute. reflexivity.
Defined.

(** ** Requests *)

Lemma occurs_prefix3 (a b c rest : string) :
  Text.occurs_in (a +:+ b +:+ c) (a +:+ b +:+ c +:+ rest).
Proof. exists EmptyString, rest. cbn. now rewrite !append_assoc. Qed.

Ltac find_line := repeat first [ apply occurs_prefix3 | apply occurs_later ].

(** The context of any request holds the practice type, the duration and a
    profile that is never empty. *)
Lemma context_base_fields (request : Main.IntroductionRequest) :
  let context := Main._build_introduction_context request in
  context !! "meditation_type" = Some (VStr (Main.meditation_type request))
  ∧ context !! "duration_minutes" = Some (VInt (Main.duration_minutes request))
  ∧ context !! "user_profile" = Some (VStr (profile_of request)).
Proof.
  unfold Main._build_introduction_context, profile_of. cbn zeta.
  destruct (Main.checkin_data request); repeat split; by simplify_map_eq.
Qed.

(** The context of a request with check-in data holds its four fields, a
    field left out being [None]. *)
Lemma context_with_checkin (request : Main.IntroductionRequest) (c : Main.CheckinData) :
  Main.checkin_data request = Some c →
  let context := Main._build_introduction_context request in
  context !! "agitation_level" = Some (Main.opt_val VInt (Main.agitation c))
  ∧ context !! "energy_level" = Some (Main.opt_val VStr (Main.energy c))
  ∧ context !! "current_emotions"
    = Some (Main.opt_val (λ l, VList (VStr <$> l)) (Main.emotions c))
  ∧ context !! "meditation_preference" = Some (Main.opt_val VStr (Main.preference c)).
Proof.
  intros Hc. unfold Main._build_introduction_context. rewrite Hc. cbn zeta.
  repeat split; by simplify_map_eq.
Qed.



(** X15: the profile line of the prompt is the request's profile, or
    "New meditator" when the request has none or an empty one. *)
Theorem prompt_profile_line (request : Main.IntroductionRequest) :
  ∃ prompt,
    Main.introduction_prompt (Main._build_introduction_context request) = Ok prompt
    ∧ Text.occurs_in ("- Profile: " +:+ profile_of request +:+ Text.nl) prompt
    ∧ (Main.user_profile request = None ∨ Main.user_profile request = Some EmptyString →
       profile_of request = "New meditator").
Proof.
  destruct (context_base_fields request) as (Hp & Hm & Hu).
  eexists. split.
  { unfold Main.introduction_prompt, dict_index, dict_get. rewrite Hp, Hm, Hu. reflexivity. }
  split; [cbn [py_str]; find_line|].
  unfold profile_of. now intros [-> | ->].
Qed.

(** X16: when the request carries check-in data, the prompt shows its four
    fields as they are, the defaults of the prompt playing no part: a field
    left out shows as [None], not as "unknown", "normal", "[]" or "auto". *)
Theorem prompt_checkin_lines (request : Main.IntroductionRequest) (c : Main.CheckinData) :
  Main.checkin_data request = Some c →
  ∃ prompt,
    Main.introduction_prompt (Main._build_introduction_context request) = Ok prompt
    ∧ Text.occurs_in ("- Current agitation level: "
                      +:+ py_str (Main.opt_val VInt (Main.agitation c)) +:+ "/5") prompt
    ∧ Text.occurs_in ("- Energy level: "
                      +:+ py_str (Main.opt_val VStr (Main.energy c)) +:+ Text.nl) prompt
    ∧ Text.occurs_in ("- Present emotions: "
                      +:+ py_str (Main.opt_val (λ l, VList (VStr <$> l)) (Main.emotions c))
                      +:+ Text.nl) prompt
    ∧ Text.occurs_in ("- Preference: "
                      +:+ py_str (Main.opt_val VStr (Main.preference c)) +:+ Text.nl) prompt
    ∧ (Main.agitation c = None →
       Text.occurs_in "- Current agitation level: None/5" prompt)
    ∧ (Main.energy c = None →
       Text.occurs_in ("- Energy level: None" +:+ Text.nl) prompt).
Proof.
  intros Hc.
  destruct (context_base_fields request) as (Hp & Hm & Hu).
  destruct (context_with_checkin request c Hc) as (Ha & He & Hemo & Hpref).
  eexists. split.
  { unfold Main.introduction_prompt, dict_index, dict_get.
    rewrite Hp, Hm, Hu, Ha, He, Hemo, Hpref. reflexivity. }
  split; [find_line|]. split; [find_line|]. split; [find_line|]. split; [find_line|].
  split; intros ->; cbn [Main.opt_val py_str py_repr]; find_occurrence.
Qed.

Lemma prompt_checkin_lines_witness :
  ∃ prompt,
    Main.introduction_prompt (Main._build_introduction_context checked_in_request) = Ok prompt
    ∧ Text.occurs_in "- Current agitation level: None/5" prompt
    ∧ Text.occurs_in ("- Energy level: None" +:+ Text.nl) prompt.
Proof.
  destruct (prompt_checkin_lines checked_in_request _ eq_refl)
    as (prompt & Ep & _ & _ & _ & _ & Ha & He).
  exists prompt. split; [exact Ep|]. split; [apply Ha | apply He]; reflexivity.
Defined.

(** ** Session plans, in general *)

(** The session planner, in terms of what [generate_content] did. *)
Lemma create_session_plan_cases (meditation_type : string) (d : Z)
    (user_context : option (gmap string pyval))
    (w : World) (self : SessionPlanner.t) (ids : list pyval) :
  SessionPlanner.get_available_phrases self meditation_type = Ok ids →
  SessionPlanner.create_session_plan meditation_type d user_context (w, self)
  = match GoogleApiCall.generate_content
            (session_plan_prompt meditation_type d user_context ids)
            (w, SessionPlanner.google_ai self) with
    | (Ok (Some text), (w1, g), ev) =>
        (Ok (Text.strip text), (w1, SessionPlanner.set_google_ai g self), ev)
    | (Ok None, (w1, g), ev) =>
        (Ok (SessionPlanner._create_default_csv d), (w1, SessionPlanner.set_google_ai g self),
         ev ++ [EvLog ERROR
                  "Error creating session plan: 'NoneType' object has no attribute 'strip'"])
    | (Raise e, (w1, g), ev) =>
        (Ok (SessionPlanner._create_default_csv d), (w1, SessionPlanner.set_google_ai g self),
         ev ++ [EvLog ERROR ("Error creating session plan: " +:+ exn_str e)])
    end.
Proof.
  intros Hids. unfold SessionPlanner.create_session_plan. run. cbn [fst snd].
  rewrite Hids. cbn zeta. unfold SessionPlanner.on_google_ai.
  change (SessionPlanner._build_ai_prompt _ _ _ _ _ _ _)
    with (session_plan_prompt meditation_type d user_context ids).
  destruct (GoogleApiCall.generate_content _ (w, SessionPlanner.google_ai self))
    as [[[[text|]|e] [w1 g]] ev]; cbn; rewrite ?app_nil_r; reflexivity.
Qed.

(** Text that [generate_content] returns is trimmed and not empty. *)
Lemma generate_content_text_trimmed (message text : string)
    (st st' : World * GoogleApiCall.t) (ev : list event) :
  GoogleApiCall.generate_content message st = (Ok (Some text), st', ev) →
  Text.truthy text = true ∧ Text.strip text = text.
Proof.
  intros Hrun.
  pose proof (retry_loop_outcome 3 5 (GoogleApiCall.generate_content_body message)
                (λ _, True) (λ text, Text.truthy text = true ∧ Text.strip text = text)
                (λ _, True) ltac:(lia)) as H.
  lapply H; [clear H; intros H|].
  2:{ intros s _.
      destruct (GoogleApiCall.generate_content_body message s) as [[[v|e] s'] ev'] eqn:E;
        [exact (body_ok_text s s' message v ev' E) | auto]. }
  specialize (H (Z.to_nat 3) 0 st ltac:(lia) Logic.I).
  unfold GoogleApiCall.generate_content, retry_on_error, wrapper in Hrun.
  rewrite Hrun in H. tauto.
Qed.

(** X17: only the first 37 phrase ids reach the prompt.  The prompt lists
    them after "Available phrases: ", and two planners whose first columns
    agree on their first 37 cells, with the same client, produce the same
    plan and the same events. *)
Theorem session_plan_caps_phrase_ids (meditation_type : string) (d : Z)
    (user_context : option (gmap string pyval)) (w : World)
    (self1 self2 : SessionPlanner.t) (ids1 ids2 : list pyval) :
  SessionPlanner.get_available_phrases self1 meditation_type = Ok ids1 →
  SessionPlanner.get_available_phrases self2 meditation_type = Ok ids2 →
  take 37 ids1 = take 37 ids2 →
  SessionPlanner.google_ai self1 = SessionPlanner.google_ai self2 →
  Text.occurs_in ("Available phrases: " +:+ py_str (VList (take 37 ids1)) +:+ Text.nl)
    (session_plan_prompt meditation_type d user_context ids1)
  ∧ (SessionPlanner.create_session_plan meditation_type d user_context (w, self1)).1.1
    = (SessionPlanner.create_session_plan meditation_type d user_context (w, self2)).1.1
  ∧ (SessionPlanner.create_session_plan meditation_type d user_context (w, self1)).2
    = (SessionPlanner.create_session_plan meditation_type d user_context (w, self2)).2.
Proof.
  intros H1 H2 Htake Hclient. split.
  { unfold session_plan_prompt, SessionPlanner._build_ai_prompt. cbn zeta. find_line. }
  rewrite (create_session_plan_cases _ _ _ w self1 ids1 H1).
  rewrite (create_session_plan_cases _ _ _ w self2 ids2 H2).
  assert (Hp : session_plan_prompt meditation_type d user_context ids1
               = session_plan_prompt meditation_type d user_context ids2).
  { unfold session_plan_prompt. cbn zeta. now rewrite Htake. }
  rewrite Hp, Hclient.
  destruct (GoogleApiCall.generate_content _ (w, SessionPlanner.google_ai self2))
    as [[[[text|]|e] [w1 g]] ev]; auto.
Qed.

Lemma session_plan_caps_phrase_ids_witness :
  (SessionPlanner.create_session_plan "breath_focus" 12 None
     (Stub.world Stub.with_key Stub.echo_sdk, long_planner)).1.1
  = (SessionPlanner.create_session_plan "breath_focus" 12 None
       (Stub.world Stub.with_key Stub.echo_sdk, shorter_planner)).1.1.
Proof.
  refine (proj1 (proj2 (session_plan_caps_phrase_ids "breath_focus" 12 None
            (Stub.world Stub.with_key Stub.echo_sdk) long_planner shorter_planner
            _ _ eq_refl eq_refl _ eq_refl))).
  reflexivity.
Defined.

(** X18: the plan does not depend on the "previous_sessions" entry of the
    user context, which is read and never used; and no context at all is the
    same as an empty one. *)
Theorem session_plan_ignores_previous_sessions (meditation_type : string) (d : Z)
    (context : gmap string pyval) (v : pyval) (st : World * SessionPlanner.t) :
  SessionPlanner.create_session_plan meditation_type d
    (Some (<["previous_sessions" := v]> context)) st
  = SessionPlanner.create_session_plan meditation_type d (Some context) st
  ∧ SessionPlanner.create_session_plan meditation_type d None st
    = SessionPlanner.create_session_plan meditation_type d (Some ∅) st.
Proof.
  split; [|reflexivity].
  destruct st as [w self]. unfold SessionPlanner.create_session_plan. run. cbn [fst snd].
  destruct (SessionPlanner.get_available_phrases self meditation_type); [|reflexivity].
  cbn zeta. unfold SessionPlanner._build_ai_prompt, dict_get. cbn [default from_option id].
  rewrite !lookup_insert_ne by discriminate. reflexivity.
Qed.

(** X19: both orchestrators hand on the text of the client as it is: when
    [generate_content] returns text, the session plan, and likewise the
    introduction, is that very text, with no check of its format. *)
Theorem orchestrators_pass_text_through (w : World) (text : string) (ev : list event) :
  (∀ meditation_type d user_context (self : SessionPlanner.t) ids st,
     SessionPlanner.get_available_phrases self meditation_type = Ok ids →
     GoogleApiCall.generate_content (session_plan_prompt meditation_type d user_context ids)
       (w, SessionPlanner.google_ai self) = (Ok (Some text), st, ev) →
     SessionPlanner.create_session_plan meditation_type d user_context (w, self)
     = (Ok text, (st.1, SessionPlanner.set_google_ai st.2 self), ev))
  ∧ (∀ request prompt (self : GoogleApiCall.t) st,
       Main.introduction_prompt (Main._build_introduction_context request) = Ok prompt →
       GoogleApiCall.generate_content prompt (w, self) = (Ok (Some text), st, ev) →
       Main._generate_introduction_text (Main._build_introduction_context request) (w, self)
       = (Ok text, st, ev)).
Proof.
  split.
  - intros meditation_type d user_context self ids [w1 g] Hids Hrun.
    rewrite (create_session_plan_cases _ _ _ w self ids Hids), Hrun.
    now destruct (generate_content_text_trimmed _ _ _ _ _ Hrun) as [_ ->].
  - intros request prompt self st Ep Hrun.
    destruct (context_base_fields request) as (Hp & Hm & _).
    rewrite (generate_introduction_text_cases _ _ _ prompt (w, self) Hp Hm Ep), Hrun.
    now destruct (generate_content_text_trimmed _ _ _ _ _ Hrun) as [_ ->].
Qed.

Lemma orchestrators_pass_text_through_witness :
  (SessionPlanner.create_session_plan "breath_focus" 12 None
     (Stub.world Stub.with_key recovering_sdk, Stub.planner)).1.1
  = Ok "Breathe in.".
Proof.
  destruct (orchestrators_pass_text_through (Stub.world Stub.with_key recovering_sdk)
              "Breathe in."
              (GoogleApiCall.generate_content
                 (session_plan_prompt "breath_focus" 12 None [VInt 1; VInt 2; VInt 6])
                 (Stub.world Stub.with_key recovering_sdk, Stub.client)).2) as [Hplan _].
  erewrite (Hplan "breath_focus" 12 None Stub.planner _ _ eq_refl); [reflexivity|].
  vm_compute. reflexivity.
Defined.



(** ** Session folders *)

Lemma for_each_rmtree_run (names : list string) (entries : gmap string bool) :
  Sessions.for_each names
    (λ old_session,
       Sessions.rmtree old_session ;;
       log INFO ("Cleaned up old session: " +:+ old_session))
    {| Sessions.sessions_dir := Some entries |}
  = (Ok tt,
     {| Sessions.sessions_dir := Some (foldl (λ m n, delete n m) entries names) |},
     (λ n, EvLog INFO ("Cleaned up old session: " +:+ n)) <$> names).
Proof.
  revert entries. induction names as [|n names IH]; intros entries; [reflexivity|].
  cbn [Sessions.for_each]. unfold Sessions.rmtree at 1. run. cbn.
  rewrite IH. reflexivity.
Qed.

Lemma lookup_remove_all (names : list string) (entries : gmap string bool) (n : string) :
  foldl (λ m k, delete k m) entries names !! n
  = if decide (n ∈ names) then None else entries !! n.
Proof.
  revert entries. induction names as [|k names IH]; intros entries; cbn.
  - destruct (decide (n ∈ [])) as [H|_]; [by apply elem_of_nil in H | reflexivity].
  - rewrite IH. destruct (decide (n ∈ names)) as [Hin|Hout].
    + rewrite decide_True by (now right). reflexivity.
    + destruct (decide (k = n)) as [->|Hne].
      * rewrite decide_True by (now left). apply lookup_delete_eq.
      * rewrite decide_False by (intros [->|?]%elem_of_cons; tauto).
        now apply lookup_delete_ne.
Qed.

Lemma elem_of_session_dirs (entries : gmap string bool) (n : string) :
  n ∈ Sessions.session_dirs entries ↔ entries !! n = Some true.
Proof.
  unfold Sessions.session_dirs, Sessions.listdir, Sessions.isdir.
  rewrite list_elem_of_filter, list_elem_of_fmap. split.
  - intros [Hd _]. destruct (entries !! n) as [[]|]; congruence.
  - intros Hn. rewrite Hn. split; [reflexivity|].
    exists (n, true). split; [reflexivity|]. now apply elem_of_map_to_list.
Qed.

Lemma session_dirs_NoDup (entries : gmap string bool) : NoDup (Sessions.session_dirs entries).
Proof.
  unfold Sessions.session_dirs, Sessions.listdir. apply NoDup_filter, NoDup_fst_map_to_list.
Qed.

#[local] Instance flip_le_trans : Transitive (flip String.le).
Proof. intros a b c Hab Hbc. unfold flip in *. now transitivity b. Qed.

#[local] Instance flip_le_total : Total (flip String.le).
Proof. intros a b. unfold flip. destruct (total String.le a b); auto. Qed.

(** What [cleanup_old_sessions] does to a directory that is there. *)
Lemma cleanup_run (entries : gmap string bool) :
  Sessions.cleanup_old_sessions {| Sessions.sessions_dir := Some entries |}
  = (Ok tt,
     {| Sessions.sessions_dir :=
          Some (foldl (λ m k, delete k m) entries
                  (drop 5 (Sessions.sort_reverse (Sessions.session_dirs entries)))) |},
     (λ n, EvLog INFO ("Cleaned up old session: " +:+ n))
       <$> drop 5 (Sessions.sort_reverse (Sessions.session_dirs entries))).
Proof.
  unfold Sessions.cleanup_old_sessions. run. cbn [Sessions.sessions_dir].
  fold (Sessions.session_dirs entries). now rewrite for_each_rmtree_run.
Qed.

(** The session folders left are the first five of the sorted ones. *)
Lemma session_dirs_after_cleanup (entries : gmap string bool) :
  let sorted := Sessions.sort_reverse (Sessions.session_dirs entries) in
  Sessions.session_dirs (foldl (λ m k, delete k m) entries (drop 5 sorted))
  ≡ₚ take 5 sorted.
Proof.
  cbn zeta. set (sorted := Sessions.sort_reverse (Sessions.session_dirs entries)).
  assert (Hperm : sorted ≡ₚ Sessions.session_dirs entries)
    by apply merge_sort_Permutation.
  assert (Hdup : NoDup (take 5 sorted ++ drop 5 sorted)).
  { rewrite take_drop, Hperm. apply session_dirs_NoDup. }
  apply NoDup_Permutation.
  - apply session_dirs_NoDup.
  - now apply NoDup_app in Hdup as (? & _ & _).
  - intros n. rewrite elem_of_session_dirs, lookup_remove_all.
    apply NoDup_app in Hdup as (_ & Hdisj & _).
    split.
    + destruct (decide (n ∈ drop 5 sorted)) as [|Hout]; [discriminate|].
      intros Hn. apply elem_of_session_dirs in Hn.
      rewrite <- Hperm, <- (take_drop 5 sorted) in Hn.
      apply elem_of_app in Hn as [|]; tauto.
    + intros Hk. rewrite decide_False by (intros ?; now apply (Hdisj n)).
      apply elem_of_session_dirs. rewrite <- Hperm, <- (take_drop 5 sorted).
      apply elem_of_app. now left.
Qed.

(** X21: [cleanup_old_sessions] never raises and does nothing when the
    sessions directory is absent.  Otherwise it splits the session folders in
    two: it keeps five of them (all, when there are five or fewer), every one
    kept having a name at least as great, in the order of [str], as every one
    removed; it removes the others, greatest name first, logging each; and it
    leaves the files of the directory alone. *)
Theorem cleanup_keeps_five_greatest (disk : Sessions.Disk) :
  match Sessions.sessions_dir disk with
  | None => Sessions.cleanup_old_sessions disk = (Ok tt, disk, [])
  | Some entries =>
      ∃ kept removed entries',
        Sessions.cleanup_old_sessions disk
        = (Ok tt, {| Sessions.sessions_dir := Some entries' |},
           (λ n, EvLog INFO ("Cleaned up old session: " +:+ n)) <$> removed)
        ∧ kept ++ removed ≡ₚ Sessions.session_dirs entries
        ∧ length kept = Nat.min 5 (length (Sessions.session_dirs entries))
        ∧ (∀ k r, k ∈ kept → r ∈ removed → String.le r k)
        ∧ StronglySorted (flip String.le) removed
        ∧ (∀ n, entries' !! n = if decide (n ∈ removed) then None else entries !! n)
        ∧ (∀ n, entries !! n = Some false → entries' !! n = Some false)
        ∧ Sessions.session_dirs entries' ≡ₚ kept
  end.
Proof.
  destruct disk as [[entries|]]; cbn [Sessions.sessions_dir]; [|reflexivity].
  pose proof (session_dirs_after_cleanup entries) as Hleft. cbn zeta in Hleft.
  rewrite cleanup_run.
  set (sorted := Sessions.sort_reverse (Sessions.session_dirs entries)) in *.
  assert (Hperm : sorted ≡ₚ Sessions.session_dirs entries)
    by apply merge_sort_Permutation.
  assert (Hsorted : StronglySorted (flip String.le) (take 5 sorted ++ drop 5 sorted)).
  { rewrite take_drop. apply StronglySorted_merge_sort; apply _. }
  exists (take 5 sorted), (drop 5 sorted), (foldl (λ m k, delete k m) entries (drop 5 sorted)).
  split; [reflexivity|]. split; [now rewrite take_drop|].
  split; [rewrite length_take, <- Hperm; reflexivity|].
  split; [intros k r Hk Hr; exact (StronglySorted_app_1_elem_of _ _ _ k r Hsorted Hk Hr)|].
  split; [exact (StronglySorted_app_1_r _ _ _ Hsorted)|].
  split; [intros n; apply lookup_remove_all|].
  split; [|exact Hleft].
  intros n Hn. rewrite lookup_remove_all, decide_False; [exact Hn|].
  intros Hin. assert (Hd : n ∈ Sessions.session_dirs entries).
  { rewrite <- Hperm, <- (take_drop 5 sorted). apply elem_of_app. now right. }
  apply elem_of_session_dirs in Hd. congruence.
Qed.

(** X22: after [cleanup_old_sessions] at most five session folders are
    left, and running it again removes nothing and logs nothing. *)
Theorem cleanup_is_idempotent (disk : Sessions.Disk) :
  match Sessions.sessions_dir (Sessions.cleanup_old_sessions disk).1.2 with
  | None => Sessions.sessions_dir disk = None
  | Some entries' => (length (Sessions.session_dirs entries') ≤ 5)%nat
  end
  ∧ Sessions.cleanup_old_sessions (Sessions.cleanup_old_sessions disk).1.2
    = (Ok tt, (Sessions.cleanup_old_sessions disk).1.2, []).
Proof.
  destruct disk as [[entries|]]; [|split; reflexivity].
  pose proof (session_dirs_after_cleanup entries) as Hleft. cbn zeta in Hleft.
  rewrite cleanup_run. cbn [fst snd Sessions.sessions_dir].
  set (entries' := foldl _ entries _) in *.
  assert (Hlen : (length (Sessions.session_dirs entries') ≤ 5)%nat).
  { rewrite Hleft, length_take. lia. }
  split; [exact Hlen|].
  rewrite cleanup_run.
  assert (Hnone : drop 5 (Sessions.sort_reverse (Sessions.session_dirs entries')) = []).
  { apply drop_ge. unfold Sessions.sort_reverse.
    now rewrite (merge_sort_Permutation _ (Sessions.session_dirs entries')). }
  now rewrite Hnone.
Qed.

(** The order is that of the names, not of the times in them: among folders
    named after their time of creation, one with a shorter number is kept
    before older ones with longer numbers are. *)
Example cleanup_crowded :
  (Sessions.cleanup_old_sessions {| Sessions.sessions_dir := Some Sessions.crowded |}).2
  = [EvLog INFO "Cleaned up old session: session_1700000002";
     EvLog INFO "Cleaned up old session: session_1700000001"].
Proof. vm_compute. reflexivity. Qed.

(** ** WAV files *)

Lemma byte_of_Z_value (n : Z) :
  Z.of_N (Byte.to_N (VoiceService.byte_of_Z n)) = n mod 256.
Proof.
  unfold VoiceService.byte_of_Z.
  assert (Hr : 0 ≤ n mod 256 < 256) by (apply Z.mod_pos_bound; lia).
  destruct (Byte.of_N (Z.to_N (n mod 256))) as [b|] eqn:E.
  - apply Byte.to_of_N in E. cbn. rewrite E. lia.
  - apply Byte.of_N_None_iff in E. lia.
Qed.

(** Reading back what [le_bytes] wrote gives the number, cut to the width. *)
Lemma le_value_le_bytes (width : nat) (n : Z) :
  VoiceService.le_value (VoiceService.le_bytes width n) = n mod 256 ^ Z.of_nat width.
Proof.
  revert n. induction width as [|w IH]; intros n.
  - cbn. now rewrite Z.mod_1_r.
  - cbn [VoiceService.le_bytes]. unfold VoiceService.le_value in *. cbn [foldr].
    rewrite IH, byte_of_Z_value.
    replace (256 ^ Z.of_nat (Datatypes.S w)) with (256 * 256 ^ Z.of_nat w)
      by (rewrite Nat2Z.inj_succ, Z.pow_succ_r by lia; reflexivity).
    rewrite Z.rem_mul_r by lia. reflexivity.
Qed.

Lemma length_le_bytes (width : nat) (n : Z) : length (VoiceService.le_bytes width n) = width.
Proof. revert n. induction width as [|w IH]; intros n; cbn; [|rewrite IH]; reflexivity. Qed.

Lemma uint32_in_range (n : Z) :
  0 ≤ n < 2 ^ 32 → VoiceService.pack_field (VoiceService.UInt32 n)
                   = Some (VoiceService.le_bytes 4 n).
Proof.
  intros [H0 H1]. cbn [VoiceService.pack_field].
  apply Z.leb_le in H0 as ->. apply Z.ltb_lt in H1 as ->. reflexivity.
Qed.

Lemma uint32_out_of_range (n : Z) :
  2 ^ 32 ≤ n → VoiceService.pack_field (VoiceService.UInt32 n) = None.
Proof.
  intros H. cbn [VoiceService.pack_field].
  apply Z.ltb_ge in H as ->. now rewrite andb_false_r.
Qed.

Lemma pack_app (l1 l2 : list VoiceService.field) (a b : list Byte.byte) :
  VoiceService.pack l1 = Some a → VoiceService.pack l2 = Some b →
  VoiceService.pack (l1 ++ l2) = Some (a ++ b).
Proof.
  revert a. induction l1 as [|f l1 IH]; intros a H1 H2; cbn in H1 |- *.
  - injection H1 as <-. exact H2.
  - destruct (VoiceService.pack_field f) as [x|]; [|discriminate].
    destruct (VoiceService.pack l1) as [xs|]; [|discriminate].
    injection H1 as <-. rewrite (IH xs eq_refl H2). now rewrite app_assoc.
Qed.

Lemma bytes4_exact (b : list Byte.byte) :
  length b = 4%nat → VoiceService.pack_field (VoiceService.Bytes4 b) = Some b.
Proof.
  intros Hb. cbn [VoiceService.pack_field]. f_equal. now apply take_app_length'.
Qed.

(** The bytes of the file, when the two sizes fit their fields. *)
Lemma create_wav_file_bytes (audio_data : list Byte.byte) :
  Z.of_nat (length audio_data) + 36 < 2 ^ 32 →
  VoiceService._create_wav_file audio_data
  = Some ((String.list_byte_of_string "RIFF"
           ++ VoiceService.le_bytes 4 (Z.of_nat (length audio_data) + 36))
          ++ (String.list_byte_of_string "WAVEfmt "
              ++ VoiceService.le_bytes 4 16 ++ VoiceService.le_bytes 2 1
              ++ VoiceService.le_bytes 2 1 ++ VoiceService.le_bytes 4 24000
              ++ VoiceService.le_bytes 4 48000 ++ VoiceService.le_bytes 2 2
              ++ VoiceService.le_bytes 2 16 ++ String.list_byte_of_string "data")
          ++ VoiceService.le_bytes 4 (Z.of_nat (length audio_data))
          ++ audio_data).
Proof.
  intros Hlen. unfold VoiceService._create_wav_file.
  set (len := Z.of_nat (length audio_data)) in *.
  assert (Hpos : 0 ≤ len) by (unfold len; lia).
  assert (H1 : VoiceService.pack
                 [VoiceService.Bytes4 (String.list_byte_of_string "RIFF");
                  VoiceService.UInt32 (len + 36)]
               = Some (String.list_byte_of_string "RIFF"
                       ++ VoiceService.le_bytes 4 (len + 36))).
  { cbn [VoiceService.pack].
    rewrite (bytes4_exact (String.list_byte_of_string "RIFF") eq_refl).
    rewrite (uint32_in_range (len + 36)) by lia.
    now rewrite app_nil_r. }
  assert (H3 : VoiceService.pack [VoiceService.UInt32 len]
               = Some (VoiceService.le_bytes 4 len)).
  { cbn [VoiceService.pack]. rewrite (uint32_in_range len) by lia. now rewrite app_nil_r. }
  pose proof (eq_refl :
    VoiceService.pack
      [VoiceService.Bytes4 (String.list_byte_of_string "WAVE");
       VoiceService.Bytes4 (String.list_byte_of_string "fmt ");
       VoiceService.UInt32 16; VoiceService.UInt16 1; VoiceService.UInt16 1;
       VoiceService.UInt32 24000; VoiceService.UInt32 48000; VoiceService.UInt16 2;
       VoiceService.UInt16 16; VoiceService.Bytes4 (String.list_byte_of_string "data")]
    = Some (String.list_byte_of_string "WAVEfmt "
            ++ VoiceService.le_bytes 4 16 ++ VoiceService.le_bytes 2 1
            ++ VoiceService.le_bytes 2 1 ++ VoiceService.le_bytes 4 24000
            ++ VoiceService.le_bytes 4 48000 ++ VoiceService.le_bytes 2 2
            ++ VoiceService.le_bytes 2 16 ++ String.list_byte_of_string "data")) as H2.
  pose proof (pack_app _ _ _ _ H1 (pack_app _ _ _ _ H2 H3)) as H.
  cbn [app] in H. rewrite H. now rewrite <- !app_assoc.
Qed.

(** X23: for audio data of fewer than 2^32 - 36 bytes, [_create_wav_file]
    returns a header of 44 bytes followed by the data untouched.  The header
    opens with "RIFF"; its size field is the length of the file less 8; its
    data size field is the length of the data; and the format fields read
    16-bit mono PCM at 24000 samples a second, with the byte rate and the
    block size that go with them. *)
Theorem wav_file_layout (audio_data : list Byte.byte) :
  Z.of_nat (length audio_data) + 36 < 2 ^ 32 →
  ∃ file,
    VoiceService._create_wav_file audio_data = Some file
    ∧ length file = (44 + length audio_data)%nat
    ∧ drop 44 file = audio_data
    ∧ VoiceService.slice 0 4 file = String.list_byte_of_string "RIFF"
    ∧ VoiceService.slice 8 8 file = String.list_byte_of_string "WAVEfmt "
    ∧ VoiceService.slice 36 4 file = String.list_byte_of_string "data"
    ∧ VoiceService.le_value (VoiceService.slice 4 4 file) = Z.of_nat (length file) - 8
    ∧ VoiceService.le_value (VoiceService.slice 40 4 file) = Z.of_nat (length audio_data)
    ∧ VoiceService.le_value (VoiceService.slice 20 2 file) = 1
    ∧ VoiceService.le_value (VoiceService.slice 22 2 file) = 1
    ∧ VoiceService.le_value (VoiceService.slice 24 4 file) = 24000
    ∧ VoiceService.le_value (VoiceService.slice 28 4 file) = 24000 * 1 * (16 / 8)
    ∧ VoiceService.le_value (VoiceService.slice 32 2 file) = 1 * (16 / 8)
    ∧ VoiceService.le_value (VoiceService.slice 34 2 file) = 16.
Proof.
  intros Hlen. set (len := Z.of_nat (length audio_data)) in *.
  assert (Hpos : 0 ≤ len) by (unfold len; lia).
  rewrite (create_wav_file_bytes audio_data Hlen). fold len.
  assert (Hsize : VoiceService.le_value (VoiceService.le_bytes 4 (len + 36)) = len + 36).
  { rewrite le_value_le_bytes. apply Z.mod_small. lia. }
  assert (Hdsize : VoiceService.le_value (VoiceService.le_bytes 4 len) = len).
  { rewrite le_value_le_bytes. apply Z.mod_small. lia. }
  assert (Ls : ∃ a b c d, VoiceService.le_bytes 4 (len + 36) = [a; b; c; d])
    by (cbn [VoiceService.le_bytes]; eauto).
  assert (Ld : ∃ a b c d, VoiceService.le_bytes 4 len = [a; b; c; d])
    by (cbn [VoiceService.le_bytes]; eauto).
  destruct Ls as (s0 & s1 & s2 & s3 & Es), Ld as (d0 & d1 & d2 & d3 & Ed).
  rewrite Es in Hsize |- *. rewrite Ed in Hdsize |- *.
  match goal with
  | |- context [(?r ++ [s0; s1; s2; s3]) ++ ?m ++ [d0; d1; d2; d3] ++ audio_data] =>
      let r' := eval vm_compute in r in
      let m' := eval vm_compute in m in
      change ((r ++ [s0; s1; s2; s3]) ++ m ++ [d0; d1; d2; d3] ++ audio_data)
        with ((r' ++ [s0; s1; s2; s3]) ++ m' ++ [d0; d1; d2; d3] ++ audio_data)
  end.
  cbn [app]. eexists. split; [reflexivity|].
  assert (Hfile : ∀ n : nat, Z.of_nat (44 + n) - 8 = Z.of_nat n + 36) by (intros; lia).
  cbn [length VoiceService.slice take drop].
  repeat split; try reflexivity; try (vm_compute; reflexivity).
  - rewrite Hsize. fold (44 + length audio_data)%nat. rewrite Hfile. reflexivity.
  - exact Hdsize.
Qed.

Lemma wav_file_layout_witness :
  ∃ file,
    VoiceService._create_wav_file [Byte.x01; Byte.x02; Byte.x03] = Some file
    ∧ length file = 47%nat
    ∧ VoiceService.le_value (VoiceService.slice 4 4 file) = 39
    ∧ VoiceService.le_value (VoiceService.slice 40 4 file) = 3.
Proof.
  destruct (wav_file_layout [Byte.x01; Byte.x02; Byte.x03] ltac:(vm_compute; reflexivity))
    as (file & E & Hl & _ & _ & _ & _ & Hs & Hd & _).
  exists file. rewrite Hl in Hs. auto.
Defined.

(** X24: [_create_wav_file] raises [struct.error] exactly when the data is
    too long for the size field of the header, that is from 2^32 - 36 bytes
    on; below that it always returns a file. *)
Theorem wav_file_size_limit (audio_data : list Byte.byte) :
  VoiceService._create_wav_file audio_data = None
  ↔ 2 ^ 32 ≤ Z.of_nat (length audio_data) + 36.
Proof.
  split.
  - intros Hnone. destruct (Z_lt_le_dec (Z.of_nat (length audio_data) + 36) (2 ^ 32))
      as [Hlt|Hge]; [|exact Hge].
    rewrite (create_wav_file_bytes audio_data Hlt) in Hnone. discriminate.
  - intros Hge. unfold VoiceService._create_wav_file.
    cbn [VoiceService.pack]. rewrite (uint32_out_of_range _ Hge).
    now destruct (VoiceService.pack_field _).
Qed.
